(** * Contract_IQ: the chatbot responder and the analytics loaders

    A shallow embedding of
      - [src/frontend/modules/chatbot.py]: [generate_ai_response],
        [generate_comprehensive_csv_analysis], [build_combined_context],
        [generate_openai_response], [generate_simple_csv_response];
      - [src/frontend/utils.py]: the four loaders, [load_cfo_analytics_data],
        [generate_risk_assessment], [generate_executive_summary].

    Conventions of the embedding.
      - A Python [str] is a [string] of UTF-8 bytes.  [lower], [upper] and
        [strip] act on the ASCII letters and the ASCII white space; every
        keyword the code looks for is ASCII.
      - A contracts table is a list of typed rows with the columns of the
        CSV schema: text columns hold a string or NaN ([None]) and have object
        dtype, the two monetary columns hold whole dollars ([Z]), a date cell
        records what [pd.to_datetime] makes of it.
      - A Python float is a [pyfloat]: NaN, an infinity or an exact rational;
        the rounding of binary64 arithmetic is not part of the model.
      - Python exceptions are values of [Exn]; code that may raise lives in
        [Res A = Exn + A], and [try_except] is the [try: ... except Exception]
        block.  The [st.cache_data] decorators replay a result that the
        decorated body produced earlier; the bodies are what is embedded. *)

From Stdlib Require Import ZArith QArith Qabs List String Ascii Bool Lia.
From Stdlib Require Import Decimal DecimalString DecimalZ.
Import ListNotations.

Open Scope string_scope.
Open Scope Z_scope.

(** ** Python strings *)

Definition nl : string := String (ascii_of_nat 10) "".
Definition dq : string := String (ascii_of_nat 34) "".

Definition is_upper (c : ascii) : bool :=
  let n := nat_of_ascii c in (65 <=? n)%nat && (n <=? 90)%nat.

Definition is_lower (c : ascii) : bool :=
  let n := nat_of_ascii c in (97 <=? n)%nat && (n <=? 122)%nat.

Definition lower_char (c : ascii) : ascii :=
  if is_upper c then ascii_of_nat (nat_of_ascii c + 32) else c.

Definition upper_char (c : ascii) : ascii :=
  if is_lower c then ascii_of_nat (nat_of_ascii c - 32) else c.

(** [s.lower()] *)
Fixpoint lower (s : string) : string :=
  match s with
  | EmptyString => EmptyString
  | String c t => String (lower_char c) (lower t)
  end.

(** [s.upper()] *)
Fixpoint upper (s : string) : string :=
  match s with
  | EmptyString => EmptyString
  | String c t => String (upper_char c) (upper t)
  end.

(** [needle in hay] *)
Fixpoint contains (needle hay : string) : bool :=
  prefix needle hay ||
  match hay with
  | EmptyString => false
  | String _ t => contains needle t
  end.

(** The characters [str.strip()] removes, among the ASCII ones. *)
Definition is_space (c : ascii) : bool :=
  let n := nat_of_ascii c in
  ((9 <=? n)%nat && (n <=? 13)%nat) || ((28 <=? n)%nat && (n <=? 32)%nat).

Fixpoint lstrip (s : string) : string :=
  match s with
  | EmptyString => EmptyString
  | String c t => if is_space c then lstrip t else s
  end.

Fixpoint rev_string (acc s : string) : string :=
  match s with
  | EmptyString => acc
  | String c t => rev_string (String c acc) t
  end.

(** [s.strip()] *)
Definition strip (s : string) : string :=
  rev_string "" (lstrip (rev_string "" (lstrip s))).

(** Truth value of a [str]: the empty string is false. *)
Definition truthy (s : string) : bool :=
  match s with EmptyString => false | _ => true end.

(** [sep.join(parts)] *)
Definition join (sep : string) (parts : list string) : string :=
  String.concat sep parts.

(** [any(word in text for word in words)] *)
Definition any_in (words : list string) (text : string) : bool :=
  existsb (fun w => contains w text) words.

(** ** Python numbers and their formatting *)

(** [str(n)] for an [int]. *)
Definition str_int (z : Z) : string := NilZero.string_of_int (Z.to_int z).

Fixpoint group3 (rev_digits : list ascii) (k : nat) : list ascii :=
  match rev_digits with
  | [] => []
  | c :: t =>
      match k with
      | O => ","%char :: c :: group3 t 2
      | S k' => c :: group3 t k'
      end
  end.

(** The [,] option of the format mini-language on a string of digits. *)
Definition thousands (digits : string) : string :=
  string_of_list_ascii
    (List.rev (group3 (List.rev (list_ascii_of_string digits)) 3)).

Inductive pyfloat : Type :=
| FNaN
| FInf (negative : bool)
| FFin (q : Q).

(** [float(n)] for an [int]. *)
Definition float_of_int (z : Z) : pyfloat := FFin (inject_Z z).

(** [a / b] on numpy integers: a zero divisor gives NaN or an infinity (and a
    warning), not an exception. *)
Definition truediv (a b : Z) : pyfloat :=
  match b with
  | Z0 => if a =? 0 then FNaN else FInf (a <? 0)
  | Zpos p => FFin (Qmake a p)
  | Zneg p => FFin (Qmake (- a) p)
  end.

(** [x * n] for a float [x] and a positive integer [n]. *)
Definition fmul (x : pyfloat) (n : positive) : pyfloat :=
  match x with
  | FFin q => FFin (q * inject_Z (Zpos n))
  | _ => x
  end.

(** [x > n] and [x <= n]; every comparison with NaN is false. *)
Definition fgt (x : pyfloat) (n : Z) : bool :=
  match x with
  | FNaN => false
  | FInf negative => negb negative
  | FFin q => negb (Qle_bool q (inject_Z n))
  end.

Definition fle (x : pyfloat) (n : Z) : bool :=
  match x with
  | FNaN => false
  | FInf negative => negative
  | FFin q => Qle_bool q (inject_Z n)
  end.

(** Rounding of a non-negative rational to the nearest integer, ties to the
    even one, as the [f] presentation type rounds. *)
Definition round_half_even (q : Q) : Z :=
  let n := Qnum q in
  let d := Zpos (Qden q) in
  let fl := n / d in
  let r2 := 2 * (n mod d) in
  if r2 <? d then fl
  else if d <? r2 then fl + 1
  else if Z.even fl then fl else fl + 1.

Definition sign_of (q : Q) : string := if Qnum q <? 0 then "-" else "".

(** [f"{x:,.0f}"] *)
Definition fmt_comma_0f (x : pyfloat) : string :=
  match x with
  | FNaN => "nan"
  | FInf negative => if negative then "-inf" else "inf"
  | FFin q => sign_of q ++ thousands (str_int (round_half_even (Qabs q)))
  end.

(** [f"{x:.1f}"] *)
Definition fmt_1f (x : pyfloat) : string :=
  match x with
  | FNaN => "nan"
  | FInf negative => if negative then "-inf" else "inf"
  | FFin q =>
      let r := round_half_even (Qabs q * inject_Z 10) in
      sign_of q ++ str_int (r / 10) ++ "." ++ str_int (r mod 10)
  end.

(** [f"{n:,.0f}"] for an [int]: the integer is converted with [float()]
    first. *)
Definition fmt_money (z : Z) : string := fmt_comma_0f (float_of_int z).

(** ** Exceptions *)

Record Exn : Type := mkExn { exn_class : string; exn_msg : string }.

(** [str(e)] *)
Definition str_exn (e : Exn) : string := exn_msg e.

Definition Res (A : Type) : Type := (Exn + A)%type.

Definition ret {A : Type} (a : A) : Res A := inr a.
Definition raise {A : Type} (e : Exn) : Res A := inl e.

Definition bind {A B : Type} (m : Res A) (k : A -> Res B) : Res B :=
  match m with
  | inl e => inl e
  | inr a => k a
  end.

Notation "x <- m ;; k" := (bind m (fun x => k))
  (at level 61, m at next level, right associativity).

(** [try: body  except Exception as e: handler e] *)
Definition try_except {A : Type} (body : Res A) (handler : Exn -> Res A)
  : Res A :=
  match body with
  | inl e => handler e
  | inr a => inr a
  end.

Notation "l1 +++ l2" := (List.app l1 l2)
  (at level 60, right associativity).

Fixpoint mapM {A B : Type} (f : A -> Res B) (l : list A) : Res (list B) :=
  match l with
  | [] => ret []
  | a :: t => b <- f a ;; bs <- mapM f t ;; ret (b :: bs)
  end.

(** ** The contracts table *)

(** A cell of a date column, with what [pd.to_datetime] makes of it: a missing
    cell becomes NaT, a well-formed one a timestamp (nanoseconds since the
    epoch), and on any other one [pd.to_datetime] raises. *)
Inductive datecell : Type :=
| DateNaN
| DateOk (text : string) (ns : Z)
| DateBad (text : string).

Record Row : Type := mkRow {
  contract_id : option string;
  counterparty : option string;
  total_value_usd : Z;
  annual_commitment_usd : Z;
  start_date : datecell;
  end_date : datecell;
  status : option string;
  payment_terms : option string;
  sla_penalty : option string;
  escalation : option string;
  type_ : option string
}.

(** A [DataFrame] of contracts; [has_type] is ['type' in df.columns]. *)
Record DataFrame : Type := mkFrame { has_type : bool; rows : list Row }.

(** [pd.DataFrame()] *)
Definition empty_frame : DataFrame := mkFrame false [].

(** [df.empty] *)
Definition df_empty (df : DataFrame) : bool :=
  match rows df with [] => true | _ => false end.

Definition cell_eqb (a b : option string) : bool :=
  match a, b with
  | None, None => true
  | Some x, Some y => String.eqb x y
  | _, _ => false
  end.

Definition cell_mem (a : option string) (l : list (option string)) : bool :=
  existsb (cell_eqb a) l.

(** How an f-string or [astype(str)] shows a text cell. *)
Definition str_cell (a : option string) : string :=
  match a with Some s => s | None => "nan" end.

Definition raw_date (d : datecell) : string :=
  match d with
  | DateNaN => "nan"
  | DateOk text _ => text
  | DateBad text => text
  end.

Fixpoint drop_seen (seen : list (option string)) (l : list Row) : list Row :=
  match l with
  | [] => []
  | r :: t =>
      if cell_mem (contract_id r) seen then drop_seen seen t
      else r :: drop_seen (contract_id r :: seen) t
  end.

(** [df.drop_duplicates(subset=['contract_id'], keep='first')] *)
Definition drop_duplicates (df : DataFrame) : DataFrame :=
  mkFrame (has_type df) (drop_seen [] (rows df)).

(** [col.sum()], [len(df)], [col.min()], [col.max()] *)
Definition col_sum (f : Row -> Z) (l : list Row) : Z :=
  fold_right (fun r acc => f r + acc) 0 l.

Definition len {A : Type} (l : list A) : Z := Z.of_nat (List.length l).

Definition col_min (f : Row -> Z) (l : list Row) : pyfloat :=
  match l with
  | [] => FNaN
  | r :: t => float_of_int (fold_right (fun x acc => Z.min (f x) acc) (f r) t)
  end.

Definition col_max (f : Row -> Z) (l : list Row) : pyfloat :=
  match l with
  | [] => FNaN
  | r :: t => float_of_int (fold_right (fun x acc => Z.max (f x) acc) (f r) t)
  end.

(** [col.str.contains(pat, na=False)] and its [case=False] variant, for a
    pattern without regular-expression operators. *)
Definition str_contains (pat : string) (a : option string) : bool :=
  match a with Some s => contains pat s | None => false end.

Definition str_contains_nocase (pat : string) (a : option string) : bool :=
  match a with Some s => contains (lower pat) (lower s) | None => false end.

(** [col.isin(values)] *)
Definition isin (values : list string) (a : option string) : bool :=
  match a with Some s => existsb (String.eqb s) values | None => false end.

(** [col.notna() & (col != text)] *)
Definition notna_and_ne (text : string) (a : option string) : bool :=
  match a with Some s => negb (String.eqb s text) | None => false end.

(** [col.unique()]: the distinct cells in order of first appearance. *)
Fixpoint unique_seen (seen l : list (option string)) : list (option string) :=
  match l with
  | [] => []
  | a :: t =>
      if cell_mem a seen then unique_seen seen t
      else a :: unique_seen (a :: seen) t
  end.

Definition unique (l : list (option string)) : list (option string) :=
  unique_seen [] l.

(** [', '.join(cells)]: a NaN among the cells is a float, and [join] raises. *)
Definition join_cells (cells : list (option string)) : Res string :=
  parts <- mapM (fun a : option string =>
                   match a with
                   | Some s => ret s
                   | None => raise (mkExn "TypeError"
                       "sequence item: expected str instance, float found")
                   end) cells ;;
  ret (join ", " parts).

(** A stable insertion sort; [le x y] says that [x] may stand before [y]. *)
Fixpoint insert_by {A : Type} (le : A -> A -> bool) (x : A) (l : list A)
  : list A :=
  match l with
  | [] => [x]
  | y :: t => if le x y then x :: y :: t else y :: insert_by le x t
  end.

Definition sort_by {A : Type} (le : A -> A -> bool) (l : list A) : list A :=
  fold_right (insert_by le) [] l.

(** One row of [groupby('counterparty').agg(...)]. *)
Record VendorAgg : Type := mkAgg {
  va_vendor : string;
  va_total : Z;
  va_annual : Z;
  va_count : Z
}.

Fixpoint group_add (c : string) (r : Row) (l : list VendorAgg)
  : list VendorAgg :=
  match l with
  | [] => [mkAgg c (total_value_usd r) (annual_commitment_usd r) 1]
  | g :: t =>
      if String.eqb (va_vendor g) c
      then mkAgg c (va_total g + total_value_usd r)
                   (va_annual g + annual_commitment_usd r)
                   (va_count g + 1) :: t
      else g :: group_add c r t
  end.

Definition group_rows (l : list Row) : list VendorAgg :=
  fold_left (fun acc r =>
               match counterparty r with
               | Some c => group_add c r acc
               | None => acc
               end) l [].

(** [df.groupby('counterparty').agg(...)]: rows without a counterparty are
    left out, the groups come in the order of their keys. *)
Definition groupby_counterparty (l : list Row) : list VendorAgg :=
  sort_by (fun a b => String.leb (va_vendor a) (va_vendor b)) (group_rows l).

(** [.sort_values('total_value_usd', ascending=False)]; groups of equal value
    keep their order here. *)
Definition sort_total_desc (l : list VendorAgg) : list VendorAgg :=
  sort_by (fun a b => va_total b <=? va_total a) l.

Fixpoint count_add (s : string) (l : list (string * Z)) : list (string * Z) :=
  match l with
  | [] => [(s, 1)]
  | (k, n) :: t =>
      if String.eqb k s then (k, n + 1) :: t else (k, n) :: count_add s t
  end.

(** [col.value_counts()]: NaN is not counted, the most frequent value first. *)
Definition value_counts (l : list (option string)) : list (string * Z) :=
  sort_by (fun a b => snd b <=? snd a)
    (fold_left (fun acc a =>
                  match a with Some s => count_add s acc | None => acc end)
               l []).

(** ** Dates *)

(** [pd.to_datetime] on one cell: NaT is [None]. *)
Definition to_datetime (d : datecell) : Res (option Z) :=
  match d with
  | DateNaN => ret None
  | DateOk _ ns => ret (Some ns)
  | DateBad text =>
      raise (mkExn "ValueError" ("Unknown datetime string format: " ++ text))
  end.

Definition ns_per_day : Z := 86400 * 1000000000.

(** [(end_date - now).days]: the whole days of the difference, rounded
    down. *)
Definition days_until (now end_ns : Z) : Z := (end_ns - now) / ns_per_day.

(** [(end_date - now).dt.days / 30]; NaT gives NaN. *)
Definition months_to_expiry (now : Z) (end_ns : option Z) : pyfloat :=
  match end_ns with
  | Some t => truediv (days_until now t) 30
  | None => FNaN
  end.

(** [df_temp['end_date'] = pd.to_datetime(df_temp['end_date'])] *)
Definition with_end_dates (l : list Row) : Res (list (Row * option Z)) :=
  mapM (fun r => t <- to_datetime (end_date r) ;; ret (r, t)) l.

(** [df_temp[df_temp['months_to_expiry'] <= n]] *)
Definition expiring_within (now n : Z) (l : list (Row * option Z))
  : list (Row * option Z) :=
  filter (fun p => fle (months_to_expiry now (snd p)) n) l.

(** Year and month of a day number (days since 1970-01-01) in the proleptic
    Gregorian calendar. *)
Definition year_month (days : Z) : Z * Z :=
  let z := days + 719468 in
  let era := z / 146097 in
  let doe := z - era * 146097 in
  let yoe := (doe - doe / 1460 + doe / 36524 - doe / 146096) / 365 in
  let doy := doe - (365 * yoe + yoe / 4 - yoe / 100) in
  let mp := (5 * doy + 2) / 153 in
  let m := if mp <? 10 then mp + 3 else mp - 9 in
  (yoe + era * 400 + (if m <=? 2 then 1 else 0), m).

Definition pad2 (z : Z) : string :=
  if z <? 10 then "0" ++ str_int z else str_int z.

(** [ts.strftime('%Y-%m')]; on NaT it raises. *)
Definition strftime_ym (t : option Z) : Res string :=
  match t with
  | Some ns =>
      let ym := year_month (ns / ns_per_day) in
      ret (str_int (fst ym) ++ "-" ++ pad2 (snd ym))
  | None => raise (mkExn "ValueError" "NaTType does not support strftime")
  end.

(** ** chatbot.py: [generate_comprehensive_csv_analysis] *)

Definition high_label : string := "⚠️ HIGH CONCENTRATION RISK".
Definition moderate_label : string := "⚠️ MODERATE CONCENTRATION RISK".

Definition vendor_words : list string :=
  ["vendor"; "supplier"; "counterparty"; "top"; "concentration"].
Definition expiry_words : list string :=
  ["expiring"; "renewal"; "expiry"; "timeline"; "6 months"; "2 years"].
Definition payment_words : list string := ["payment"; "terms"; "unfavorable"].
Definition risk_words : list string :=
  ["penalty"; "sla"; "escalation"; "risk"].
Definition named_vendors : list string :=
  ["IBM"; "Microsoft"; "Oracle"; "SAP"; "Salesforce"; "HCL"; "Infosys";
   "Alpha"].
Definition unfavorable_terms : list string :=
  ["Net 60"; "Net 90"; "Milestone-based"].

(** The portfolio overview, always present. *)
Definition overview_section (clean : list Row) : list string :=
  let total_contracts := len clean in
  let total_value := col_sum total_value_usd clean in
  let total_annual := col_sum annual_commitment_usd clean in
  let active_contracts :=
    len (filter (fun r => str_contains "Active" (status r)) clean) in
  [ "=== PORTFOLIO OVERVIEW ===";
    "• Total Contracts: " ++ str_int total_contracts;
    "• Total Portfolio Value: $" ++ fmt_money total_value;
    "• Total Annual Commitments: $" ++ fmt_money total_annual;
    "• Active Contracts: " ++ str_int active_contracts;
    "• Average Contract Value: $"
      ++ fmt_comma_0f (truediv total_value total_contracts) ].

Fixpoint enumerate_from {A : Type} (i : Z) (l : list A) : list (Z * A) :=
  match l with
  | [] => []
  | a :: t => (i, a) :: enumerate_from (i + 1) t
  end.

Definition vendor_line (total_value : Z) (p : Z * VendorAgg) : string :=
  let (i, data) := p in
  let pct := fmul (truediv (va_total data) total_value) 100 in
  "• " ++ str_int (i + 1) ++ ". " ++ va_vendor data ++ ": $"
    ++ fmt_money (va_total data) ++ " (" ++ fmt_1f pct
    ++ "% of portfolio) - " ++ str_int (va_count data) ++ " contracts".

(** [vendor_analysis.iloc[0]['total_value_usd'] / total_value * 100] *)
Definition top_vendor_pct (vendor_analysis : list VendorAgg) (total_value : Z)
  : Res pyfloat :=
  match vendor_analysis with
  | [] => raise (mkExn "IndexError"
                   "single positional indexer is out-of-bounds")
  | top :: _ => ret (fmul (truediv (va_total top) total_value) 100)
  end.

Definition concentration_lines (pct : pyfloat) : list string :=
  if fgt pct 50 then
    [high_label ++ ": Top vendor represents " ++ fmt_1f pct
       ++ "% of portfolio"]
  else if fgt pct 30 then
    [moderate_label ++ ": Top vendor represents " ++ fmt_1f pct
       ++ "% of portfolio"]
  else [].

Definition vendor_section (clean : list Row) : Res (list string) :=
  let total_value := col_sum total_value_usd clean in
  let vendor_analysis := sort_total_desc (groupby_counterparty clean) in
  let head5 := firstn 5 vendor_analysis in
  let ranking := map (vendor_line total_value) (enumerate_from 0 head5) in
  pct <- top_vendor_pct vendor_analysis total_value ;;
  ret (((nl ++ "=== TOP VENDORS ANALYSIS ===") :: ranking)
         +++ concentration_lines pct).

Definition expiry_section (now : Z) (clean : list Row) : Res (list string) :=
  df_temp <- with_end_dates clean ;;
  let expiring_6m := expiring_within now 6 df_temp in
  let expiring_2y := expiring_within now 24 df_temp in
  let head :=
    [ nl ++ "=== CONTRACT EXPIRY ANALYSIS ===";
      "• Expiring in 6 months: " ++ str_int (len expiring_6m)
        ++ " contracts ($"
        ++ fmt_money (col_sum annual_commitment_usd (map fst expiring_6m))
        ++ " at risk)";
      "• Expiring in 2 years: " ++ str_int (len expiring_2y)
        ++ " contracts ($"
        ++ fmt_money (col_sum annual_commitment_usd (map fst expiring_2y))
        ++ " at risk)" ] in
  match expiring_6m with
  | [] => ret head
  | _ =>
      vendors <- join_cells
                   (unique (map (fun p => counterparty (fst p)) expiring_6m)) ;;
      let ids :=
        join ", "
          (map str_cell
             (unique (map (fun p => Some (str_cell (contract_id (fst p))))
                          expiring_6m))) in
      ret (head +++ [ "• Critical Renewals Needed: " ++ vendors;
                      "• Contract IDs Expiring: " ++ ids ])
  end.

Definition payment_section (clean : list Row) : Res (list string) :=
  let payment_terms_counts := value_counts (map payment_terms clean) in
  let unfavorable :=
    filter (fun r => isin unfavorable_terms (payment_terms r)) clean in
  let head :=
    ((nl ++ "=== PAYMENT TERMS ANALYSIS ===")
       :: map (fun tc : string * Z =>
                 "• " ++ fst tc ++ ": " ++ str_int (snd tc) ++ " contracts")
              payment_terms_counts) in
  match unfavorable with
  | [] => ret head
  | _ =>
      vendors <- join_cells (unique (map counterparty unfavorable)) ;;
      ret (head +++
           [ "⚠️ UNFAVORABLE TERMS RISK: " ++ str_int (len unfavorable)
               ++ " contracts ($"
               ++ fmt_money (col_sum annual_commitment_usd unfavorable) ++ ")";
             "• Vendors with Unfavorable Terms: " ++ vendors ])
  end.

Definition risk_section (clean : list Row) : Res (list string) :=
  let penalty_contracts :=
    filter (fun r => notna_and_ne "" (sla_penalty r)) clean in
  let escalation_contracts :=
    filter (fun r => notna_and_ne "None" (escalation r)) clean in
  let head :=
    [ nl ++ "=== RISK ANALYSIS ===";
      "• SLA Penalty Risk: " ++ str_int (len penalty_contracts)
        ++ " contracts ($"
        ++ fmt_money (col_sum total_value_usd penalty_contracts) ++ ")";
      "• Escalation Risk: " ++ str_int (len escalation_contracts)
        ++ " contracts ($"
        ++ fmt_money (col_sum annual_commitment_usd escalation_contracts)
        ++ ")" ] in
  penalty_lines <-
    match penalty_contracts with
    | [] => ret []
    | _ =>
        vendors <- join_cells (unique (map counterparty penalty_contracts)) ;;
        ret ["• Penalty Risk Vendors: " ++ vendors]
    end ;;
  escalation_lines <-
    match escalation_contracts with
    | [] => ret []
    | _ =>
        vendors <-
          join_cells (unique (map counterparty escalation_contracts)) ;;
        ret ["• Escalation Risk Vendors: " ++ vendors]
    end ;;
  ret (head +++ penalty_lines +++ escalation_lines).

(** A row of [vendor_timeline] after both [pd.to_datetime] calls. *)
Record Timed : Type := mkTimed {
  t_row : Row;
  t_start : option Z;
  t_end : option Z
}.

(** Order of [sort_values('start_date')]: NaT comes last. *)
Definition start_le (a b : Timed) : bool :=
  match t_start a, t_start b with
  | Some x, Some y => x <=? y
  | Some _, None => true
  | None, Some _ => false
  | None, None => true
  end.

Definition timeline_line (c : Timed) : Res string :=
  s <- strftime_ym (t_start c) ;;
  e <- strftime_ym (t_end c) ;;
  ret ("  - " ++ str_cell (contract_id (t_row c)) ++ ": " ++ s ++ " to " ++ e
         ++ " ($" ++ fmt_money (annual_commitment_usd (t_row c)) ++ "/yr) - "
         ++ str_cell (status (t_row c))).

Definition named_vendor_section (prompt_lower : string) (clean : list Row)
    (vendor : string) : Res (list string) :=
  if contains (lower vendor) prompt_lower then
    let total_value := col_sum total_value_usd clean in
    let vendor_contracts :=
      filter (fun r => str_contains_nocase vendor (counterparty r)) clean in
    match vendor_contracts with
    | [] => ret []
    | _ =>
        let vendor_total := col_sum total_value_usd vendor_contracts in
        let head :=
          [ nl ++ "=== " ++ upper vendor ++ " CONTRACTS DETAILED ANALYSIS ===";
            "• Contract Count: " ++ str_int (len vendor_contracts);
            "• Total Value: $" ++ fmt_money vendor_total;
            "• Annual Commitment: $"
              ++ fmt_money (col_sum annual_commitment_usd vendor_contracts);
            "• Portfolio Share: "
              ++ fmt_1f (fmul (truediv vendor_total total_value) 100) ++ "%" ]
        in
        starts <- mapM (fun r => to_datetime (start_date r)) vendor_contracts ;;
        ends <- mapM (fun r => to_datetime (end_date r)) vendor_contracts ;;
        let vendor_timeline :=
          sort_by start_le
            (map (fun x => mkTimed (fst (fst x)) (snd (fst x)) (snd x))
                 (combine (combine vendor_contracts starts) ends)) in
        lines <- mapM timeline_line vendor_timeline ;;
        ret (head +++ "• Contract Timeline:" :: lines)
    end
  else ret [].

Definition types_section (df_clean : DataFrame) : list string :=
  if has_type df_clean then
    let total_contracts := len (rows df_clean) in
    ((nl ++ "=== CONTRACT TYPES BREAKDOWN ===")
       :: map (fun tc : string * Z =>
                 let pct := fmul (truediv (snd tc) total_contracts) 100 in
                 "• " ++ fst tc ++ ": " ++ str_int (snd tc) ++ " contracts ("
                   ++ fmt_1f pct ++ "%)")
              (value_counts (map type_ (rows df_clean))))
  else [].

Definition summary_section (clean : list Row) : list string :=
  let total_contracts := len clean in
  let total_value := col_sum total_value_usd clean in
  let total_annual := col_sum annual_commitment_usd clean in
  [ nl ++ "=== FINANCIAL SUMMARY ===";
    "• Total Portfolio Value: $" ++ fmt_money total_value;
    "• Annual Commitments: $" ++ fmt_money total_annual;
    "• Average Annual Commitment: $"
      ++ fmt_comma_0f (truediv total_annual total_contracts);
    "• Contract Value Range: $" ++ fmt_comma_0f (col_min total_value_usd clean)
      ++ " - $" ++ fmt_comma_0f (col_max total_value_usd clean) ].

(** A keyword-triggered section: left out when no word of the group occurs in
    the lower-cased question. *)
Definition when_asked (words : list string) (prompt_lower : string)
    (section : Res (list string)) : Res (list string) :=
  if any_in words prompt_lower then section else ret [].

(** The [analysis] list at the [return] of the [try] block. *)
Definition analysis_lines (now : Z) (df : DataFrame) (prompt : string)
  : Res (list string) :=
  let prompt_lower := lower prompt in
  let df_clean := drop_duplicates df in
  let clean := rows df_clean in
  vendors <- when_asked vendor_words prompt_lower (vendor_section clean) ;;
  expiry <- when_asked expiry_words prompt_lower (expiry_section now clean) ;;
  payment <- when_asked payment_words prompt_lower (payment_section clean) ;;
  risk <- when_asked risk_words prompt_lower (risk_section clean) ;;
  named <- mapM (named_vendor_section prompt_lower clean) named_vendors ;;
  ret (overview_section clean +++ vendors +++ expiry +++ payment +++ risk
         +++ List.concat named +++ types_section df_clean
         +++ summary_section clean).

Definition generate_comprehensive_csv_analysis (now : Z) (df : DataFrame)
    (prompt : string) : Res string :=
  try_except (analysis <- analysis_lines now df prompt ;;
              ret (join nl analysis))
    (fun e => ret ("Error in CSV analysis: " ++ str_exn e)).

(** ** chatbot.py: [build_combined_context] *)

Definition csv_header : string :=
  "PRIMARY DATA SOURCE - CONTRACT CSV ANALYSIS:".
Definition graph_header : string :=
  "SECONDARY INSIGHTS - KNOWLEDGE GRAPH CONTEXT:".

Definition analysis_instructions : string := "
ANALYSIS INSTRUCTIONS:
- PRIORITIZE CSV DATA: Use exact numbers, dates, and contract details from the CSV analysis above
- BE DIRECT: Answer the specific question asked, no extra analysis unless requested
- FORMAT: Use bullet points (•) for clarity
- BE SPECIFIC: Include exact dollar amounts, contract counts, vendor names, and dates
- NO AUTO-RISK ASSESSMENT: Only provide risk/opportunity analysis when specifically asked
- FINANCIAL ACCURACY: All financial figures must be precise and properly formatted
".

(** [if text and text.strip()] *)
Definition non_blank (text : string) : bool :=
  truthy text && truthy (strip text).

Definition build_combined_context (graph_context csv_analysis prompt : string)
  : string :=
  let context_parts := [] in
  let context_parts :=
    if non_blank csv_analysis
    then context_parts +++ [csv_header ++ nl ++ csv_analysis]
    else context_parts in
  let context_parts :=
    if non_blank graph_context
    then context_parts +++ [graph_header ++ nl ++ graph_context]
    else context_parts in
  let context_parts := context_parts +++ [analysis_instructions] in
  join (nl ++ nl) context_parts.

(** ** chatbot.py: [generate_simple_csv_response] *)

(** The branches of the [if]/[elif] chain, in the order they are tried. *)
Inductive Rule : Type :=
| RuleTotalValue
| RuleTopVendors
| RuleExpiring6Months
| RuleIbmTimeline
| RulePaymentTerms
| RulePenalty
| RuleGeneric.

(** The conditions of the chain: the first one that holds selects the
    branch. *)
Definition select_rule (prompt_lower : string) : Rule :=
  if contains "total" prompt_lower && contains "value" prompt_lower
  then RuleTotalValue
  else if contains "vendor" prompt_lower && contains "top" prompt_lower
  then RuleTopVendors
  else if contains "expiring" prompt_lower && contains "6 months" prompt_lower
  then RuleExpiring6Months
  else if contains "ibm" prompt_lower && contains "timeline" prompt_lower
  then RuleIbmTimeline
  else if contains "payment" prompt_lower && contains "terms" prompt_lower
  then RulePaymentTerms
  else if contains "penalty" prompt_lower
  then RulePenalty
  else RuleGeneric.

Definition generic_message (clean : list Row) : string :=
  "Based on analysis of your " ++ str_int (len clean)
    ++ " contracts, I can provide insights about payment terms, renewals, vendor relationships, SLA requirements, and financial metrics. Please ask a more specific question.".

(** The bodies of the branches. *)
Definition apply_rule (now : Z) (clean : list Row) (rule : Rule)
  : Res string :=
  match rule with
  | RuleTotalValue =>
      let total_value := col_sum total_value_usd clean in
      ret ("Based on contract analysis, your total contract portfolio value is $"
             ++ fmt_money total_value ++ " across " ++ str_int (len clean)
             ++ " contracts.")
  | RuleTopVendors =>
      let vendor_analysis := sort_total_desc (groupby_counterparty clean) in
      ret (fold_left
             (fun response (p : Z * VendorAgg) =>
                response ++ str_int (fst p + 1) ++ ". " ++ va_vendor (snd p)
                  ++ ": $" ++ fmt_money (va_total (snd p)) ++ nl)
             (enumerate_from 0 (firstn 5 vendor_analysis))
             ("Top vendors by contract value:" ++ nl))
  | RuleExpiring6Months =>
      df_temp <- with_end_dates clean ;;
      let expiring_contracts := expiring_within now 6 df_temp in
      match expiring_contracts with
      | [] => ret "No contracts are expiring in the next 6 months."
      | _ =>
          vendors <-
            join_cells
              (unique (map (fun p => counterparty (fst p))
                           expiring_contracts)) ;;
          ret ("You have " ++ str_int (len expiring_contracts)
                 ++ " contracts expiring in the next 6 months: " ++ vendors
                 ++ ". Total value at risk: $"
                 ++ fmt_money
                      (col_sum annual_commitment_usd
                               (map fst expiring_contracts))
                 ++ ".")
      end
  | RuleIbmTimeline =>
      let ibm_contracts :=
        filter (fun r => str_contains_nocase "IBM" (counterparty r)) clean in
      match ibm_contracts with
      | [] => ret "No IBM contracts found in the portfolio."
      | _ =>
          ret (fold_left
                 (fun response contract =>
                    response ++ "- " ++ str_cell (contract_id contract) ++ ": "
                      ++ raw_date (start_date contract) ++ " to "
                      ++ raw_date (end_date contract) ++ " ($"
                      ++ fmt_money (annual_commitment_usd contract) ++ "/yr)"
                      ++ nl)
                 ibm_contracts
                 ("IBM Contract Timeline:" ++ nl))
      end
  | RulePaymentTerms =>
      let unfavorable :=
        filter (fun r => isin unfavorable_terms (payment_terms r)) clean in
      match unfavorable with
      | [] => ret "Great news! All your contracts have favorable payment terms."
      | _ =>
          ret ("Found " ++ str_int (len unfavorable)
                 ++ " contracts with unfavorable payment terms (Net 60, Net 90, or Milestone-based). Total annual commitment at risk: $"
                 ++ fmt_money (col_sum annual_commitment_usd unfavorable)
                 ++ ".")
      end
  | RulePenalty =>
      let penalty_contracts :=
        filter (fun r => notna_and_ne "" (sla_penalty r)) clean in
      ret ("You have " ++ str_int (len penalty_contracts)
             ++ " contracts with SLA penalty clauses, representing $"
             ++ fmt_money (col_sum total_value_usd penalty_contracts)
             ++ " in total contract value at risk.")
  | RuleGeneric => ret (generic_message clean)
  end.

(** The [try] block of [generate_simple_csv_response]. *)
Definition simple_response_body (now : Z) (prompt : string) (df : DataFrame)
  : Res string :=
  let df_clean := drop_duplicates df in
  let prompt_lower := lower prompt in
  apply_rule now (rows df_clean) (select_rule prompt_lower).

Definition generate_simple_csv_response (now : Z) (prompt : string)
    (df : DataFrame) : Res string :=
  try_except (simple_response_body now prompt df)
    (fun e => ret ("Error in simple analysis: " ++ str_exn e
                     ++ ". Please try a different question.")).

(** ** Python values and dictionaries *)

(** A parsed line of the insights file. *)
Inductive Json : Type := JsonValue (text : string).

(** A number stored in a metrics dictionary. *)
Inductive Number : Type :=
| NInt (z : Z)
| NFloat (x : pyfloat).

(** What the analytics bundle holds under its keys. *)
Inductive Value : Type :=
| VNone
| VFrame (df : DataFrame)
| VList (items : list Json)
| VDict (entries : list (string * Number)).

(** A [dict] with string keys, in insertion order. *)
Definition Dict : Type := list (string * Value).

Fixpoint dict_lookup {V : Type} (d : list (string * V)) (key : string)
  : option V :=
  match d with
  | [] => None
  | (k, v) :: t => if String.eqb k key then Some v else dict_lookup t key
  end.

(** [d.get(key, default)] *)
Definition dict_get {V : Type} (d : list (string * V)) (key : string)
    (default : V) : V :=
  match dict_lookup d key with Some v => v | None => default end.


(** [d[key] = v] *)
Fixpoint dict_set (d : Dict) (key : string) (v : Value) : Dict :=
  match d with
  | [] => [(key, v)]
  | (k, w) :: t =>
      if String.eqb k key then (k, v) :: t else (k, w) :: dict_set t key v
  end.

(** [d.update(other)] *)
Definition dict_update (d other : Dict) : Dict :=
  fold_left (fun acc kv => dict_set acc (fst kv) (snd kv)) other d.

(** The attribute access [df.empty] on whatever the bundle holds: only a
    [DataFrame] has the attribute. *)
Definition frame_of (v : Value) : Res DataFrame :=
  match v with
  | VFrame df => ret df
  | VNone =>
      raise (mkExn "AttributeError"
               "'NoneType' object has no attribute 'empty'")
  | _ => raise (mkExn "AttributeError" "object has no attribute 'empty'")
  end.

(** ** chatbot.py: the LLM call and [generate_ai_response] *)

(** What the responder does to the outside world, and the hand-over to the
    template rules, in the order they happen. *)
Inductive Event : Type :=
| ChatCompletion (system_content user_content : string)
| FallbackRules (prompt : string).

(** The surroundings of one call: the clock, the session state, whether the
    API client can be built, and the answer of the completion endpoint (the
    text of [response.choices[0].message.content], or the exception raised on
    the way to it). *)
Record Env : Type := mkEnv {
  env_now : Z;
  session_state : list (string * string);
  openai_client : Res unit;
  chat_completions_create : string -> string -> Res string
}.

(** Computations that may raise and that leave a trace of events. *)
Definition M (A : Type) : Type := list Event -> Res A * list Event.

Definition mret {A : Type} (a : A) : M A := fun log => (inr a, log).

Definition mbind {A B : Type} (m : M A) (k : A -> M B) : M B :=
  fun log =>
    match m log with
    | (inl e, log') => (inl e, log')
    | (inr a, log') => k a log'
    end.

Definition lift {A : Type} (r : Res A) : M A := fun log => (r, log).

Definition emit (ev : Event) : M unit := fun log => (inr tt, log +++ [ev]).

(** [try: body  except Exception as e: handler e]; what the body did before
    it raised stays done. *)
Definition mtry {A : Type} (body : M A) (handler : Exn -> M A) : M A :=
  fun log =>
    match body log with
    | (inl e, log') => handler e log'
    | (inr a, log') => (inr a, log')
    end.

Definition run {A : Type} (m : M A) : Res A * list Event := m [].

Notation "x <~ m ;; k" := (mbind m (fun x => k))
  (at level 61, m at next level, right associativity).

Definition system_prompt : string :=
  "You are a direct, efficient CFO contract analyst assistant. Provide straightforward answers based on contract data.

CRITICAL INSTRUCTIONS:
1. PRIORITIZE CSV DATA - Use exact numbers, dates, and contract details from CSV analysis.
2. BE DIRECT - Answer the specific question asked, no extra fluff.
3. FORMAT: Use bullet points (•) for clarity and easy scanning.
4. BE SPECIFIC: Include exact dollar amounts, contract counts, vendor names, and dates.
5. ONLY PROVIDE RISK/OPPORTUNITY ANALYSIS when explicitly asked about "
  ++ dq ++ "risk" ++ dq ++ ", " ++ dq ++ "opportunities" ++ dq ++ ", or "
  ++ dq ++ "assessment" ++ dq ++ ".

RESPONSE STYLE:
• Straightforward answers to the question asked
• Use bullet points (•) for key findings
• Include exact financial figures ($X,XXX,XXX)
• Mention specific vendor names and contract IDs when relevant
• NO automatic risk assessments unless specifically requested
• NO strategic recommendations unless asked for

Focus on answering the specific question with accurate data from the CSV analysis.".

Definition user_message (prompt context : string) : string :=
  "CONTRACT DATA ANALYSIS (CSV - PRIMARY SOURCE):
" ++ context ++ "

QUESTION: " ++ prompt ++ "

Provide a direct answer with:
• Specific numbers and financial figures from the CSV data
• Exact contract details, vendor names, and dates
• Clear bullet points for easy reading

Answer only what was asked - be direct and specific.".

Definition generate_openai_response (env : Env) (prompt context : string)
  : M string :=
  mtry
    (_ <~ lift (openai_client env) ;;
     let user_content := user_message prompt context in
     _ <~ emit (ChatCompletion system_prompt user_content) ;;
     content <~ lift (chat_completions_create env system_prompt user_content) ;;
     mret (strip content))
    (fun e => mret ("Error generating OpenAI response: " ++ str_exn e
                      ++ ". Please try again.")).

Definition no_data_message : string :=
  "No contract data available. Please check your data sources.".

Definition apology (e : Exn) : string :=
  "I encountered an error while processing your question: " ++ str_exn e
    ++ ". Please try rephrasing your question or contact support.".

Definition generate_ai_response (env : Env) (prompt : string)
    (analytics_data : Dict) : M string :=
  mtry
    (let graph_context := dict_get (session_state env) "graph_context" "" in
     let df := dict_get analytics_data "contract_csv" (VFrame empty_frame) in
     frame <~ lift (frame_of df) ;;
     if df_empty frame then mret no_data_message
     else
       csv_analysis <~
         lift (generate_comprehensive_csv_analysis (env_now env) frame prompt) ;;
       let combined_context :=
         build_combined_context graph_context csv_analysis prompt in
       response <~ generate_openai_response env prompt combined_context ;;
       mret response)
    (fun e =>
       mtry
         (let df :=
            dict_get analytics_data "contract_csv" (VFrame empty_frame) in
          frame <~ lift (frame_of df) ;;
          if negb (df_empty frame) then
            _ <~ emit (FallbackRules prompt) ;;
            lift (generate_simple_csv_response (env_now env) prompt frame)
          else mret (apology e))
         (fun e2 => mret (apology e))).

(** ** utils.py: the file system and the loaders *)

(** A path: missing, or present with what reading it gives (the parsed
    content, or the exception of an unreadable or malformed file). *)
Inductive File (A : Type) : Type :=
| Missing
| Present (read : Res A).

Arguments Missing {A}.
Arguments Present {A} read.

(** A line of a JSONL file: its text and what [json.loads] makes of it. *)
Record JsonLine : Type := mkLine { line_text : string; loads : Res Json }.

Record FileSystem : Type := mkFS {
  dummy_contracts_50_csv : File DataFrame;
  uploaded_contracts_csv : File DataFrame;
  cfo_contract_insights_jsonl : File (list JsonLine)
}.

(** [os.path.exists(path)] *)
Definition path_exists {A : Type} (f : File A) : bool :=
  match f with Missing => false | Present _ => true end.

(** [pd.read_csv(path)] and [open(path)] followed by reading the lines. *)
Definition read_file {A : Type} (f : File A) : Res A :=
  match f with
  | Missing => raise (mkExn "FileNotFoundError" "No such file or directory")
  | Present read => read
  end.

Definition load_demo_contracts (fs : FileSystem) : Res DataFrame :=
  try_except
    (if path_exists (dummy_contracts_50_csv fs) then
       demo_df <- read_file (dummy_contracts_50_csv fs) ;;
       ret demo_df
     else ret empty_frame)
    (fun e => ret empty_frame).

Definition load_uploaded_contracts (fs : FileSystem) : Res DataFrame :=
  try_except
    (if path_exists (uploaded_contracts_csv fs) then
       uploaded_df <- read_file (uploaded_contracts_csv fs) ;;
       ret uploaded_df
     else ret empty_frame)
    (fun e => ret empty_frame).

Definition load_unified_contracts (fs : FileSystem) : Res DataFrame :=
  try_except
    (if path_exists (uploaded_contracts_csv fs) then
       unified_df <- read_file (uploaded_contracts_csv fs) ;;
       ret unified_df
     else if path_exists (dummy_contracts_50_csv fs) then
       dummy_df <- read_file (dummy_contracts_50_csv fs) ;;
       ret dummy_df
     else ret empty_frame)
    (fun e => ret empty_frame).

Definition load_cfo_jsonl_insights (fs : FileSystem) : Res (list Json) :=
  try_except
    (if path_exists (cfo_contract_insights_jsonl fs) then
       lines <- read_file (cfo_contract_insights_jsonl fs) ;;
       insights <-
         mapM loads (filter (fun l => truthy (strip (line_text l))) lines) ;;
       ret insights
     else ret [])
    (fun e => ret []).

Definition generate_basic_insights_disabled (df : DataFrame) : Dict :=
  [ ("cfo_insights", VList []);
    ("risk_assessment", VDict []);
    ("executive_summary", VDict []) ].

(** ** utils.py: [generate_risk_assessment], [generate_executive_summary] *)

Definition list_max (l : list Z) : option Z :=
  match l with
  | [] => None
  | x :: t => Some (fold_right Z.max x t)
  end.

(** [vendor_concentration.max() / vendor_concentration.sum() * 100]; the
    maximum of an empty series is NaN. *)
Definition concentration_pct (groups : list VendorAgg) : pyfloat :=
  match list_max (map va_total groups) with
  | Some m => fmul (truediv m (fold_right Z.add 0 (map va_total groups))) 100
  | None => FNaN
  end.

Definition generate_risk_assessment (now : Z) (df : DataFrame)
  : Res (list (string * Number)) :=
  if df_empty df then ret []
  else
    let total_contracts := len (rows df) in
    let active_contracts :=
      len (filter (fun r => str_contains "Active" (status r)) (rows df)) in
    let vendor_concentration := groupby_counterparty (rows df) in
    let top_vendor_pct := concentration_pct vendor_concentration in
    df_temp <- with_end_dates (rows df) ;;
    let expiring_soon := len (expiring_within now 6 df_temp) in
    ret [ ("total_contracts", NInt total_contracts);
          ("active_contracts", NInt active_contracts);
          ("vendor_concentration_risk", NFloat top_vendor_pct);
          ("expiring_soon", NInt expiring_soon) ].

Definition generate_executive_summary (df : DataFrame) (insights : list Json)
  : Res (list (string * Number)) :=
  if df_empty df then ret []
  else
    let total_value := col_sum total_value_usd (rows df) in
    let annual_commitment := col_sum annual_commitment_usd (rows df) in
    ret [ ("total_contract_value", NInt total_value);
          ("annual_commitment", NInt annual_commitment) ].

(** ** utils.py: [load_cfo_analytics_data] *)

(** The branch shared by the modes "unified" and "live", after [df] has been
    found non-empty. *)
Definition with_graph_insights (fs : FileSystem) (now : Z) (df : DataFrame)
    (analytics_data : Dict) : Res Dict :=
  let analytics_data := dict_set analytics_data "contract_csv" (VFrame df) in
  jsonl_insights <- load_cfo_jsonl_insights fs ;;
  match jsonl_insights with
  | _ :: _ =>
      let analytics_data :=
        dict_set analytics_data "cfo_insights" (VList jsonl_insights) in
      risk <- generate_risk_assessment now df ;;
      let analytics_data :=
        dict_set analytics_data "risk_assessment" (VDict risk) in
      summary <- generate_executive_summary df jsonl_insights ;;
      ret (dict_set analytics_data "executive_summary" (VDict summary))
  | [] => ret (dict_update analytics_data (generate_basic_insights_disabled df))
  end.

Definition load_cfo_analytics_data (fs : FileSystem) (now : Z) (mode : string)
  : Res Dict :=
  let analytics_data : Dict :=
    [ ("contract_csv", VNone);
      ("cfo_insights", VList []);
      ("risk_assessment", VDict []);
      ("executive_summary", VDict []) ] in
  if String.eqb mode "unified" then
    df <- load_unified_contracts fs ;;
    if negb (df_empty df) then with_graph_insights fs now df analytics_data
    else ret analytics_data
  else if String.eqb mode "demo" then
    df <- load_demo_contracts fs ;;
    if negb (df_empty df) then
      let analytics_data := dict_set analytics_data "contract_csv" (VFrame df) in
      ret (dict_update analytics_data (generate_basic_insights_disabled df))
    else ret analytics_data
  else if String.eqb mode "live" then
    df <- load_uploaded_contracts fs ;;
    if negb (df_empty df) then with_graph_insights fs now df analytics_data
    else ret analytics_data
  else ret analytics_data.

(** ** chatbot.py: [load_contract_insights], [build_knowledge_graph] *)

(** The chatbot's own reader of the insights file. *)
Definition load_contract_insights (fs : FileSystem) : Res (list Json) :=
  try_except
    (if path_exists (cfo_contract_insights_jsonl fs) then
       lines <- read_file (cfo_contract_insights_jsonl fs) ;;
       insights <-
         mapM loads (filter (fun l => truthy (strip (line_text l))) lines) ;;
       ret insights
     else ret [])
    (fun e => ret []).

(** [st.session_state.key = text] *)
Fixpoint session_set (session : list (string * string)) (key text : string)
  : list (string * string) :=
  match session with
  | [] => [(key, text)]
  | (k, w) :: t =>
      if String.eqb k key then (k, text) :: t
      else (k, w) :: session_set t key text
  end.

(** What [build_knowledge_graph] leaves behind: its return value, the session
    state, and the messages shown with [st.error]. *)
Record GraphLoad : Type := mkLoad {
  load_ok : bool;
  load_session : list (string * string);
  load_errors : list string
}.

(** [context_file] is the path "../graph_context_memory.txt"; the function's
    argument [analytics_data] is not used by it. *)
Definition build_knowledge_graph (context_file : File string)
    (session : list (string * string)) : Res GraphLoad :=
  try_except
    (if path_exists context_file then
       context_memory <- read_file context_file ;;
       ret (mkLoad true (session_set session "graph_context" context_memory)
                   [])
     else
       ret (mkLoad false session
              ["Graph context memory not found. Please run the contract processing pipeline first."]))
    (fun e =>
       ret (mkLoad false session
              ["Error loading knowledge graph: " ++ str_exn e])).

(** ** executive.py: [format_insights_clean_text], [create_page] *)

(** The value of a key metric: [isinstance(value, (int, float))] holds for
    the first three. *)
Inductive Kpi : Type :=
| KpiInt (z : Z)
| KpiFloat (x : pyfloat)
| KpiBool (b : bool)
| KpiText (s : string).

Record Evidence : Type := mkEvidence {
  snippet : option string;
  source : option string
}.

(** An insight record with the fields of the JSONL schema; [None] is a
    missing key. *)
Record InsightData : Type := mkInsight {
  dimension : option string;
  question : option string;
  insight : option string;
  kpis : option (list (string * Kpi));
  risks : option (list string);
  opportunities : option (list string);
  evidence : option (list Evidence);
  data_gaps : option (list string);
  confidence : option pyfloat
}.









(** [dimensions[dim].append(insight)], with a new key put last. *)
Fixpoint dimension_add (dim : string) (i : InsightData)
    (dimensions : list (string * list InsightData))
  : list (string * list InsightData) :=
  match dimensions with
  | [] => [(dim, [i])]
  | (d, l) :: t =>
      if String.eqb d dim then (d, l +++ [i]) :: t
      else (d, l) :: dimension_add dim i t
  end.

(** The loop that fills [dimensions]; [insight['dimension']] raises on a
    record without the key. *)
Definition group_step (acc : Res (list (string * list InsightData)))
    (i : InsightData) : Res (list (string * list InsightData)) :=
  dimensions <- acc ;;
  match dimension i with
  | Some dim => ret (dimension_add dim i dimensions)
  | None => raise (mkExn "KeyError" "'dimension'")
  end.

Definition group_by_dimension (cfo_insights : list InsightData)
  : Res (list (string * list InsightData)) :=
  fold_left group_step cfo_insights (ret []).



(** * Vocabulary of the specification *)

(** The rows that stand for their contract: those before which no row
    carries the same identifier. *)
Fixpoint first_rows_after (earlier rest : list Row) : list Row :=
  match rest with
  | [] => []
  | r :: t =>
      if existsb (fun x => cell_eqb (contract_id r) (contract_id x)) earlier
      then first_rows_after (earlier +++ [r]) t
      else r :: first_rows_after (earlier +++ [r]) t
  end.

Definition first_rows (l : list Row) : list Row := first_rows_after [] l.




(** What one counterparty accounts for, and the largest such amount. *)
Definition vendor_total (c : string) (l : list Row) : Z :=
  col_sum total_value_usd
    (filter (fun r => cell_eqb (counterparty r) (Some c)) l).

Definition is_vendor (c : string) (l : list Row) : Prop :=
  In (Some c) (map counterparty l).

Definition top_vendor_total (l : list Row) (top : Z) : Prop :=
  (exists c, is_vendor c l /\ vendor_total c l = top) /\
  (forall c, is_vendor c l -> vendor_total c l <= top).


(** The two concentration warnings, recognised by their label. *)
Definition is_high_warning (line : string) : bool := prefix high_label line.





(** Two questions that differ only in the case of their letters. *)
Inductive differ_only_in_case : string -> string -> Prop :=
| case_nil : differ_only_in_case "" ""
| case_cons (a b : ascii) (s t : string) :
    lower_char a = lower_char b ->
    differ_only_in_case s t ->
    differ_only_in_case (String a s) (String b t).

(** Which keyword-triggered sections of the comprehensive analysis a question
    asks for: the four keyword groups and the eight named vendors. *)
Definition selected_sections (prompt : string) : list bool :=
  let prompt_lower := lower prompt in
  [ any_in vendor_words prompt_lower;
    any_in expiry_words prompt_lower;
    any_in payment_words prompt_lower;
    any_in risk_words prompt_lower ]
  +++ map (fun vendor => contains (lower vendor) prompt_lower) named_vendors.




(** ** Invariants used in the proofs *)

(** One step of the fold in [group_rows]. *)
Definition step (acc : list VendorAgg) (r : Row) : list VendorAgg :=
  match counterparty r with
  | Some c => group_add c r acc
  | None => acc
  end.

(** The groups built so far describe the rows read so far: one group per
    counterparty, holding its total. *)
Definition groups_of (acc : list VendorAgg) (done : list Row) : Prop :=
  NoDup (map va_vendor acc) /\
  (forall g, In g acc ->
     is_vendor (va_vendor g) done /\
     va_total g = vendor_total (va_vendor g) done) /\
  (forall c, is_vendor c done -> In c (map va_vendor acc)).


(** * Sample data *)

Definition day (n : Z) : Z := n * ns_per_day.

Definition sample_row (id vendor : string) (total annual : Z)
    (end_day : Z) : Row :=
  mkRow (Some id) (Some vendor) total annual
        (DateOk "2022-01-08" (day 19000)) (DateOk "end" (day end_day))
        (Some "Active") (Some "Net 30") None (Some "None") (Some "MSA").

Definition ibm_row : Row := sample_row "C-001" "IBM" 1200 400 20100.
Definition oracle_row : Row := sample_row "C-002" "Oracle" 800 200 21000.
Definition ibm_again : Row := sample_row "C-001" "IBM" 1200 400 20100.

Definition two_contracts : DataFrame := mkFrame true [ibm_row; oracle_row].
Definition with_duplicate : DataFrame :=
  mkFrame true [ibm_row; oracle_row; ibm_again].

(** A table with one end date that [pd.to_datetime] rejects. *)
Definition bad_date_row : Row :=
  mkRow (Some "C-003") (Some "SAP") 500 100
        (DateOk "2022-01-08" (day 19000)) (DateBad "soon")
        (Some "Active") (Some "Net 30") None (Some "None") (Some "MSA").

Definition bad_date_table : DataFrame := mkFrame true [bad_date_row].

Definition sample_now : Z := day 20000.

(** The analysis of [two_contracts] for a question about the top vendors. *)
Definition sample_lines : list string :=
  Eval vm_compute in
    match analysis_lines sample_now two_contracts "Who are our top vendors?"
    with
    | inr lines => lines
    | inl _ => []
    end.

(** An endpoint that cannot be reached, and one that answers. *)
Definition offline : Env :=
  mkEnv sample_now [("graph_context", "IBM is the largest vendor.")]
        (inr tt)
        (fun _ _ => inl (mkExn "APIConnectionError" "Connection error.")).

Definition online : Env :=
  mkEnv sample_now [] (inr tt) (fun _ _ => inr "  • Two contracts.  ").

Definition bundle_of (df : DataFrame) : Dict :=
  [ ("contract_csv", VFrame df);
    ("cfo_insights", VList []);
    ("risk_assessment", VDict []);
    ("executive_summary", VDict []) ].




From Stdlib Require Import Permutation Sorted.

(** ** Further vocabulary *)

(** A string with a character that is not white space. *)
Fixpoint has_ink (s : string) : bool :=
  match s with
  | EmptyString => false
  | String c t => negb (is_space c) || has_ink t
  end.


(** The same surroundings at another time. *)
Definition at_time (now : Z) (env : Env) : Env :=
  mkEnv now (session_state env) (openai_client env)
        (chat_completions_create env).

(** ** Further sample data *)

Definition no_vendor_row : Row :=
  mkRow (Some "C-009") None 700 70
        (DateOk "2022-01-08" (day 19000)) (DateOk "end" (day 20050))
        (Some "Active") (Some "Net 30") None (Some "None") (Some "MSA").

Definition no_vendor_table : DataFrame := mkFrame true [no_vendor_row].

Definition context_for (env : Env) (df : DataFrame) (prompt : string)
  : string :=
  build_combined_context (dict_get (session_state env) "graph_context" "")
    (match generate_comprehensive_csv_analysis (env_now env) df prompt with
     | inr analysis => analysis
     | inl _ => ""
     end)
    prompt.

(** Rows that name a counterparty. *)
Definition has_counterparty (r : Row) : bool :=
  match counterparty r with Some _ => true | None => false end.

Definition sum_totals (groups : list VendorAgg) : Z :=
  fold_right Z.add 0 (map va_total groups).

Definition sum_counts (groups : list VendorAgg) : Z :=
  fold_right Z.add 0 (map va_count groups).



(** The exception of [df.empty] on [None]. *)
Definition none_has_no_empty : Exn :=
  mkExn "AttributeError" "'NoneType' object has no attribute 'empty'".

(** A line of the insights file that is not blank. *)
Definition not_blank_line (l : JsonLine) : bool :=
  truthy (strip (line_text l)).

Definition fs_empty : FileSystem := mkFS Missing Missing Missing.

Definition two_lines : list JsonLine :=
  [ mkLine "{...}" (inr (JsonValue "{...}"));
    mkLine "   " (inl (mkExn "JSONDecodeError" "Expecting value"));
    mkLine "{..}" (inr (JsonValue "{..}")) ].

Definition fs_two_lines : FileSystem :=
  mkFS Missing Missing (Present (inr two_lines)).

(** The members of a dimension, in the order of the list. *)
Definition of_dimension (d : string) (l : list InsightData)
  : list InsightData :=
  filter (fun i => cell_eqb (dimension i) (Some d)) l.

(** The groups built so far describe the records read so far. *)
Definition dimensions_of (acc : list (string * list InsightData))
    (done : list InsightData) : Prop :=
  NoDup (map fst acc)
  /\ (forall d g, In (d, g) acc -> g <> [] /\ g = of_dimension d done)
  /\ (forall i, In i done ->
        exists d, dimension i = Some d /\ In d (map fst acc))
  /\ Permutation (List.concat (map snd acc)) done.

Definition insight_of (dim : option string) (text : string) : InsightData :=
  mkInsight dim (Some text) (Some text) None None None None None None.

Definition three_insights : list InsightData :=
  [ insight_of (Some "Risk") "a"; insight_of (Some "Financial") "b";
    insight_of (Some "Risk") "c" ].

(** The bundle that [load_cfo_analytics_data] returns when it finds no
    table. *)
Definition bundle_of_none : Dict :=
  [ ("contract_csv", VNone);
    ("cfo_insights", VList []);
    ("risk_assessment", VDict []);
    ("executive_summary", VDict []) ].

(** * Strings and formatted amounts *)

Lemma prefix_app (s t : string) : prefix s (s ++ t) = true.
Proof.
  induction s as [|c s IH]; cbn.
  - destruct t; reflexivity.
  - rewrite IH. destruct (ascii_dec c c); congruence.
Qed.

Lemma contains_app (needle pre post : string) :
  contains needle (pre ++ needle ++ post) = true.
Proof.
  induction pre as [|c pre IH]; cbn [append].
  - destruct (needle ++ post) eqn:E; cbn [contains];
      rewrite <- E, prefix_app; reflexivity.
  - cbn [contains]. rewrite IH. apply orb_true_r.
Qed.


Lemma differ_only_in_case_lower (p1 p2 : string) :
  differ_only_in_case p1 p2 -> lower p1 = lower p2.
Proof. induction 1 as [|a b s t Hc _ IH]; cbn; congruence. Qed.













Example fmt_money_millions : fmt_money 1234567 = "1,234,567".
Proof. reflexivity. Qed.

Example fmt_money_negative : fmt_money (-98765) = "-98,765".
Proof. reflexivity. Qed.

(** * Exceptions never leave the responder *)

Lemma ret_inj {A : Type} (a b : A) : ret a = inr b -> a = b.
Proof. unfold ret. congruence. Qed.

Lemma generate_comprehensive_csv_analysis_returns (now : Z) (df : DataFrame)
    (prompt : string) :
  exists text, generate_comprehensive_csv_analysis now df prompt = inr text.
Proof.
  unfold generate_comprehensive_csv_analysis, try_except, bind, ret.
  destruct (analysis_lines now df prompt); eauto.
Qed.

Lemma generate_simple_csv_response_returns (now : Z) (prompt : string)
    (df : DataFrame) :
  exists text, generate_simple_csv_response now prompt df = inr text.
Proof.
  unfold generate_simple_csv_response, try_except, ret.
  destruct (simple_response_body now prompt df); eauto.
Qed.

(** On every path [generate_openai_response] returns a string, and the only
    event it can add is the completion call. *)
Lemma generate_openai_response_returns (env : Env) (prompt context : string)
    (log : list Event) :
  exists text log',
    generate_openai_response env prompt context log = (inr text, log') /\
    (log' = log \/
     log' = log +++ [ChatCompletion system_prompt
                       (user_message prompt context)]).
Proof.
  unfold generate_openai_response, mtry, mbind, lift, emit, mret.
  destruct (openai_client env); [eauto|].
  destruct (chat_completions_create env _ _); eauto.
Qed.

(** C7: whatever the question, the bundle, the session and the endpoint do,
    [generate_ai_response] hands a string back to its caller: every exception
    raised on the way (a bundle without a table, a failing analysis, a failing
    completion call) ends in a returned message, and so does every exception
    inside [generate_simple_csv_response]. *)
Theorem generate_ai_response_never_raises (env : Env) (prompt : string)
    (analytics_data : Dict) (log : list Event) :
  (exists answer log',
     generate_ai_response env prompt analytics_data log = (inr answer, log'))
  /\ (forall df, exists answer,
        generate_simple_csv_response (env_now env) prompt df = inr answer).
Proof.
  split; [|intros df; apply generate_simple_csv_response_returns].
  unfold generate_ai_response, mtry, mbind, lift, mret, emit.
  destruct (frame_of _) as [e|frame]; [eauto|].
  destruct (df_empty frame); [eauto|].
  destruct (generate_comprehensive_csv_analysis_returns
              (env_now env) frame prompt) as [text ->].
  destruct (generate_openai_response_returns env prompt
              (build_combined_context
                 (dict_get (session_state env) "graph_context" "") text prompt)
              log) as (answer & log' & -> & _).
  eauto.
Qed.

(** The hand-over to the template rules is dead code: whatever happens, no
    run of [generate_ai_response] reaches [generate_simple_csv_response]. *)
Lemma fallback_rules_never_run (env : Env) (prompt : string)
    (analytics_data : Dict) (p : string) :
  ~ In (FallbackRules p) (snd (run (generate_ai_response env prompt
                                      analytics_data))).
Proof.
  unfold run, generate_ai_response, mtry, mbind, lift, mret, emit.
  destruct (frame_of _) as [e|frame]; [cbn; tauto|].
  destruct (df_empty frame); [cbn; tauto|].
  destruct (generate_comprehensive_csv_analysis_returns
              (env_now env) frame prompt) as [text ->].
  destruct (generate_openai_response_returns env prompt
              (build_combined_context
                 (dict_get (session_state env) "graph_context" "") text prompt)
              []) as (answer & log' & -> & [->| ->]); cbn; intuition discriminate.
Qed.

(** C2: when the bundle's contracts table is empty, the answer is the fixed
    no-data message and nothing else happens: no completion call, no template
    rule. *)
Theorem empty_table_short_circuit (env : Env) (prompt : string)
    (analytics_data : Dict) (df : DataFrame) :
  dict_get analytics_data "contract_csv" (VFrame empty_frame) = VFrame df ->
  df_empty df = true ->
  run (generate_ai_response env prompt analytics_data)
  = (inr no_data_message, []).
Proof.
  intros Hdf Hempty.
  unfold run, generate_ai_response, mtry, mbind, lift, mret.
  rewrite Hdf. cbn [frame_of ret]. rewrite Hempty. reflexivity.
Qed.

Lemma empty_table_short_circuit_witness :
  run (generate_ai_response online "What is the total value?"
         (bundle_of (mkFrame true [])))
  = (inr "No contract data available. Please check your data sources.", []).
Proof.
  apply (empty_table_short_circuit online "What is the total value?"
           (bundle_of (mkFrame true [])) (mkFrame true []));
    reflexivity.
Defined.

(** A bundle that holds [None] where the table should be (what
    [load_cfo_analytics_data] leaves there when it finds no data) is not an
    empty table: [df.empty] raises, the handler raises on it again, and the
    answer is the apology. *)
Lemma none_table_apology (env : Env) (prompt : string)
    (analytics_data : Dict) :
  dict_get analytics_data "contract_csv" (VFrame empty_frame) = VNone ->
  run (generate_ai_response env prompt analytics_data)
  = (inr (apology (mkExn "AttributeError"
                     "'NoneType' object has no attribute 'empty'")), []).
Proof.
  intros H. unfold run, generate_ai_response, mtry, mbind, lift, mret.
  rewrite H. reflexivity.
Qed.

(** C1, at a failing input: a question about the total value, a table of two
    contracts, and an endpoint that cannot be reached.  The completion call is
    made and fails; the answer is the error text of
    [generate_openai_response], not the answer of the template rules, which
    are never consulted. *)
Theorem llm_failure_skips_fallback_rules :
  let prompt := "What is the total value of all contracts?" in
  let outcome :=
    run (generate_ai_response offline prompt (bundle_of two_contracts)) in
  fst outcome
  = inr "Error generating OpenAI response: Connection error.. Please try again."
  /\ generate_simple_csv_response sample_now prompt two_contracts
     = inr "Based on contract analysis, your total contract portfolio value is $2,000 across 2 contracts."
  /\ (exists user_content,
        snd outcome = [ChatCompletion system_prompt user_content]).
Proof.
  cbv zeta. split; [vm_compute; reflexivity|].
  split; [vm_compute; reflexivity|].
  eexists. vm_compute. reflexivity.
Qed.

(** The other failure the handler was written for: the analysis itself fails
    (an end date that does not parse).  Its error text becomes the CSV part of
    the context, the completion call is made, and the endpoint's answer is
    returned; the template rules are not consulted here either. *)
Example analysis_failure_goes_to_llm :
  let outcome :=
    run (generate_ai_response online "Which contracts are expiring?"
           (bundle_of bad_date_table)) in
  generate_comprehensive_csv_analysis sample_now bad_date_table
    "Which contracts are expiring?"
  = inr "Error in CSV analysis: Unknown datetime string format: soon"
  /\ fst outcome = inr "• Two contracts."
  /\ exists user_content,
       snd outcome = [ChatCompletion system_prompt user_content]
       /\ contains "Error in CSV analysis: Unknown datetime string format: soon"
            user_content = true.
Proof.
  cbv zeta. split; [vm_compute; reflexivity|].
  split; [vm_compute; reflexivity|].
  eexists. split; vm_compute; reflexivity.
Qed.

(** What the template rules do when they are asked directly: a question that
    matches no rule gets the generic description of capabilities. *)
Lemma no_rule_generic_message (now : Z) (prompt : string) (df : DataFrame) :
  select_rule (lower prompt) = RuleGeneric ->
  generate_simple_csv_response now prompt df
  = inr (generic_message (rows (drop_duplicates df))).
Proof.
  intros H. unfold generate_simple_csv_response, simple_response_body.
  rewrite H. reflexivity.
Qed.


(** * De-duplication *)

Lemma cell_eqb_eq (a b : option string) : cell_eqb a b = true <-> a = b.
Proof.
  destruct a as [x|], b as [y|]; cbn; try (split; congruence).
  rewrite String.eqb_eq. split; congruence.
Qed.

Lemma cell_eqb_refl (a : option string) : cell_eqb a a = true.
Proof. now apply cell_eqb_eq. Qed.

Lemma cell_mem_In (a : option string) (l : list (option string)) :
  cell_mem a l = true <-> In a l.
Proof.
  unfold cell_mem. rewrite existsb_exists. split.
  - intros (x & Hx & E). apply cell_eqb_eq in E. now subst.
  - intros H. exists a. split; [exact H | apply cell_eqb_refl].
Qed.

Lemma earlier_mem (a : option string) (earlier : list Row) :
  existsb (fun x => cell_eqb a (contract_id x)) earlier
  = cell_mem a (map contract_id earlier).
Proof.
  unfold cell_mem. induction earlier as [|x l IH]; cbn; [reflexivity|].
  now rewrite IH.
Qed.

(** [drop_duplicates] keeps exactly the first row of every identifier. *)
Lemma drop_seen_first_rows (l : list Row) :
  forall seen earlier,
    (forall a, In a seen <-> In a (map contract_id earlier)) ->
    drop_seen seen l = first_rows_after earlier l.
Proof.
  induction l as [|r t IH]; intros seen earlier Hsame; cbn; [reflexivity|].
  rewrite earlier_mem.
  assert (E : cell_mem (contract_id r) seen
              = cell_mem (contract_id r) (map contract_id earlier)).
  { apply eq_true_iff_eq. rewrite !cell_mem_In. apply Hsame. }
  rewrite <- E.
  destruct (cell_mem (contract_id r) seen) eqn:Hmem.
  - apply IH. intros a. rewrite map_app, in_app_iff, <- Hsame. cbn.
    apply cell_mem_In in Hmem. intuition congruence.
  - f_equal. apply IH. intros a. rewrite map_app, in_app_iff, <- Hsame. cbn.
    tauto.
Qed.

Lemma drop_duplicates_first_rows (df : DataFrame) :
  rows (drop_duplicates df) = first_rows (rows df).
Proof.
  unfold drop_duplicates, first_rows. cbn [rows].
  apply drop_seen_first_rows. cbn. tauto.
Qed.

Lemma drop_seen_again (l : list Row) :
  forall seen seen',
    (forall a, In a seen -> In a seen') ->
    drop_seen seen (drop_seen seen' l) = drop_seen seen' l.
Proof.
  induction l as [|r t IH]; intros seen seen' Hsub; cbn; [reflexivity|].
  destruct (cell_mem (contract_id r) seen') eqn:E'; [now apply IH|].
  cbn. destruct (cell_mem (contract_id r) seen) eqn:E.
  - apply cell_mem_In, Hsub, cell_mem_In in E. congruence.
  - f_equal. apply IH. cbn. intuition.
Qed.

Lemma drop_duplicates_idempotent (df : DataFrame) :
  drop_duplicates (drop_duplicates df) = drop_duplicates df.
Proof.
  unfold drop_duplicates. cbn [rows has_type]. f_equal.
  apply drop_seen_again. auto.
Qed.

(** The two chatbot responders see a table only through its first rows: a
    repeated identifier changes none of their figures. *)
Lemma chatbot_counts_first_rows_only (now : Z) (df : DataFrame)
    (prompt : string) :
  generate_comprehensive_csv_analysis now df prompt
  = generate_comprehensive_csv_analysis now (drop_duplicates df) prompt
  /\ generate_simple_csv_response now prompt df
     = generate_simple_csv_response now prompt (drop_duplicates df).
Proof.
  unfold generate_comprehensive_csv_analysis, analysis_lines,
    generate_simple_csv_response, simple_response_body.
  now rewrite drop_duplicates_idempotent.
Qed.



(** C4, at a failing input: a table in which contract C-001 appears twice.
    [generate_risk_assessment] counts three contracts and a concentration of
    75 percent, where the first rows alone give two contracts and 60 percent;
    [generate_executive_summary] adds the repeated row's amounts once more. *)
Theorem risk_assessment_counts_duplicates :
  generate_risk_assessment sample_now with_duplicate
  = inr [ ("total_contracts", NInt 3);
          ("active_contracts", NInt 3);
          ("vendor_concentration_risk", NFloat (FFin (240000 # 3200)));
          ("expiring_soon", NInt 2) ]
  /\ generate_risk_assessment sample_now (drop_duplicates with_duplicate)
     = inr [ ("total_contracts", NInt 2);
             ("active_contracts", NInt 2);
             ("vendor_concentration_risk", NFloat (FFin (120000 # 2000)));
             ("expiring_soon", NInt 1) ]
  /\ generate_executive_summary with_duplicate []
     = inr [ ("total_contract_value", NInt 3200);
             ("annual_commitment", NInt 1000) ]
  /\ generate_executive_summary (drop_duplicates with_duplicate) []
     = inr [ ("total_contract_value", NInt 2000);
             ("annual_commitment", NInt 600) ].
Proof. repeat split; vm_compute; reflexivity. Qed.

(** * Letter case *)

(** C9: two questions that differ only in letter case ask for the same
    sections, select the same template rule, and get the same analysis and
    the same fallback answer. *)
Theorem case_insensitive_selection (now : Z) (df : DataFrame)
    (p1 p2 : string) :
  differ_only_in_case p1 p2 ->
  selected_sections p1 = selected_sections p2
  /\ select_rule (lower p1) = select_rule (lower p2)
  /\ generate_comprehensive_csv_analysis now df p1
     = generate_comprehensive_csv_analysis now df p2
  /\ generate_simple_csv_response now p1 df
     = generate_simple_csv_response now p2 df.
Proof.
  intros H. apply differ_only_in_case_lower in H.
  unfold selected_sections, generate_comprehensive_csv_analysis,
    analysis_lines, generate_simple_csv_response, simple_response_body.
  rewrite H. auto.
Qed.

Lemma case_insensitive_selection_witness :
  selected_sections "Top VENDORS?" = selected_sections "top vendors?"
  /\ select_rule (lower "Top VENDORS?") = select_rule (lower "top vendors?")
  /\ generate_comprehensive_csv_analysis sample_now two_contracts "Top VENDORS?"
     = generate_comprehensive_csv_analysis sample_now two_contracts "top vendors?"
  /\ generate_simple_csv_response sample_now "Top VENDORS?" two_contracts
     = generate_simple_csv_response sample_now "top vendors?" two_contracts.
Proof.
  apply (case_insensitive_selection sample_now two_contracts
           "Top VENDORS?" "top vendors?").
  repeat first [apply case_nil | apply case_cons; [reflexivity|]].
Defined.

(** * Vendor concentration *)

Lemma col_sum_app (f : Row -> Z) (a b : list Row) :
  col_sum f (a +++ b) = col_sum f a + col_sum f b.
Proof.
  unfold col_sum. induction a as [|x a IH]; cbn; [reflexivity | rewrite IH; lia].
Qed.

Lemma vendor_total_snoc (c : string) (l : list Row) (r : Row) :
  vendor_total c (l +++ [r]) =
  vendor_total c l
  + (if cell_eqb (counterparty r) (Some c) then total_value_usd r else 0).
Proof.
  unfold vendor_total. rewrite filter_app, col_sum_app. cbn [filter].
  destruct (cell_eqb (counterparty r) (Some c)); cbn; lia.
Qed.

Lemma is_vendor_snoc (c : string) (l : list Row) (r : Row) :
  is_vendor c (l +++ [r]) <-> is_vendor c l \/ counterparty r = Some c.
Proof.
  unfold is_vendor. rewrite map_app, in_app_iff. cbn. intuition congruence.
Qed.

Lemma group_rows_fold (l : list Row) : group_rows l = fold_left step l [].
Proof. reflexivity. Qed.

Lemma group_add_vendors (c : string) (r : Row) (l : list VendorAgg) (x : string) :
  In x (map va_vendor (group_add c r l)) <-> x = c \/ In x (map va_vendor l).
Proof.
  induction l as [|g l IH]; cbn.
  - intuition.
  - destruct (String.eqb_spec (va_vendor g) c) as [E|E]; cbn.
    + rewrite E. intuition.
    + rewrite IH. intuition.
Qed.

Lemma group_add_NoDup (c : string) (r : Row) (l : list VendorAgg) :
  NoDup (map va_vendor l) -> NoDup (map va_vendor (group_add c r l)).
Proof.
  induction l as [|g l IH]; cbn; intros H.
  - constructor; [intros [] | constructor].
  - inversion H as [|? ? Hn Hd]; subst.
    destruct (String.eqb_spec (va_vendor g) c) as [E|E]; cbn.
    + constructor; [now rewrite <- E | exact Hd].
    + constructor; [| now apply IH].
      rewrite group_add_vendors. intros [E'|E']; [now subst | contradiction].
Qed.

(** What [group_add] holds for a vendor, given what the list held. *)
Lemma group_add_In (c : string) (r : Row) (l : list VendorAgg) (g : VendorAgg) :
  NoDup (map va_vendor l) ->
  In g (group_add c r l) ->
  (va_vendor g <> c /\ In g l) \/
  (va_vendor g = c /\
   ((exists g0, In g0 l /\ va_vendor g0 = c
                /\ va_total g = va_total g0 + total_value_usd r) \/
    (~ In c (map va_vendor l) /\ va_total g = total_value_usd r))).
Proof.
  induction l as [|g1 l IH]; cbn; intros Hnd Hin.
  - destruct Hin as [<-|[]]. right. cbn. split; [reflexivity|]. right. tauto.
  - inversion Hnd as [|? ? Hn Hd]; subst.
    destruct (String.eqb_spec (va_vendor g1) c) as [E|E].
    + destruct Hin as [<-|Hin].
      * right. cbn. split; [reflexivity|]. left. exists g1. cbn. tauto.
      * left. split; [|tauto]. intros E'. apply Hn. rewrite E, <- E'.
        now apply in_map.
    + destruct Hin as [<-|Hin].
      * left. tauto.
      * destruct (IH Hd Hin) as [[H1 H2]|[H1 [(g0 & H2 & H3 & H4)|[H2 H3]]]].
        -- left. tauto.
        -- right. split; [exact H1|]. left. exists g0. tauto.
        -- right. split; [exact H1|]. right. split; [|exact H3].
           intros [E'|E']; tauto.
Qed.

Lemma vendor_total_absent (c : string) (l : list Row) :
  ~ is_vendor c l -> vendor_total c l = 0.
Proof.
  unfold is_vendor, vendor_total. induction l as [|r l IH]; cbn; intros H.
  - reflexivity.
  - destruct (cell_eqb (counterparty r) (Some c)) eqn:E.
    + apply cell_eqb_eq in E. tauto.
    + apply IH. tauto.
Qed.

Lemma groups_of_step (acc : list VendorAgg) (done : list Row) (r : Row) :
  groups_of acc done -> groups_of (step acc r) (done +++ [r]).
Proof.
  intros (Hnd & Hin & Hall). unfold step.
  destruct (counterparty r) as [c|] eqn:Ec.
  - split; [now apply group_add_NoDup|]. split.
    + intros g Hg. rewrite is_vendor_snoc, vendor_total_snoc, Ec.
      destruct (group_add_In c r acc g Hnd Hg)
        as [[H1 H2]|[H1 [(g0 & H2 & H3 & H4)|[H2 H3]]]].
      * destruct (Hin g H2) as [Ha Hb]. split; [tauto|].
        destruct (cell_eqb (Some c) (Some (va_vendor g))) eqn:E.
        -- apply cell_eqb_eq in E. congruence.
        -- lia.
      * split; [right; congruence|]. rewrite H1, cell_eqb_refl.
        destruct (Hin g0 H2) as [_ Hb]. rewrite H3 in Hb. lia.
      * split; [right; congruence|]. rewrite H1, cell_eqb_refl.
        rewrite vendor_total_absent; [lia|]. intros Hv. apply H2. now apply Hall.
    + intros c' Hc'. rewrite group_add_vendors.
      apply is_vendor_snoc in Hc' as [Hc'|Hc']; [right; now apply Hall|].
      left. congruence.
  - split; [exact Hnd|]. split.
    + intros g Hg. rewrite is_vendor_snoc, vendor_total_snoc, Ec. cbn.
      destruct (Hin g Hg). split; [tauto | lia].
    + intros c' Hc'. apply is_vendor_snoc in Hc' as [Hc'|Hc']; [auto|congruence].
Qed.

Lemma groups_of_fold (l : list Row) :
  forall acc done, groups_of acc done ->
                   groups_of (fold_left step l acc) (done +++ l).
Proof.
  induction l as [|r l IH]; intros acc done H; cbn [fold_left].
  - now rewrite app_nil_r.
  - replace (done +++ r :: l) with ((done +++ [r]) +++ l)
      by (now rewrite <- app_assoc).
    apply IH, groups_of_step, H.
Qed.

Lemma groups_of_group_rows (l : list Row) : groups_of (group_rows l) l.
Proof.
  apply (groups_of_fold l [] []). split; [constructor|]. split.
  - intros g [].
  - intros c [].
Qed.

Lemma insert_by_In {A} (le : A -> A -> bool) (x a : A) (l : list A) :
  In x (insert_by le a l) <-> x = a \/ In x l.
Proof.
  induction l as [|y l IH]; cbn.
  - intuition.
  - destruct (le a y); cbn; [intuition|]. rewrite IH. intuition.
Qed.

Lemma sort_by_In {A} (le : A -> A -> bool) (x : A) (l : list A) :
  In x (sort_by le l) <-> In x l.
Proof.
  unfold sort_by. induction l as [|a l IH]; cbn; [tauto|].
  rewrite insert_by_In, IH. intuition.
Qed.



Lemma vendor_analysis_nonempty (clean : list Row) (c : string) :
  is_vendor c clean -> sort_total_desc (groupby_counterparty clean) <> [].
Proof.
  intros Hc E.
  destruct (groups_of_group_rows clean) as (_ & _ & Hall).
  apply Hall in Hc. apply in_map_iff in Hc as (g & _ & Hg).
  assert (In g (sort_total_desc (groupby_counterparty clean))).
  { unfold sort_total_desc, groupby_counterparty. now rewrite !sort_by_In. }
  rewrite E in H. contradiction.
Qed.

(** ** Lines that are not concentration warnings *)

















(** ** The thresholds *)







Example sample_lines_warn :
  existsb is_high_warning sample_lines = true
  /\ In (high_label ++ ": Top vendor represents 60.0% of portfolio")
        sample_lines.
Proof. split; [reflexivity | cbn; tauto]. Qed.

(** * Expiry buckets *)

Lemma with_end_dates_inr (l : list Row) :
  forall df_temp,
    with_end_dates l = inr df_temp ->
    map fst df_temp = l
    /\ Forall (fun p => to_datetime (end_date (fst p)) = inr (snd p)) df_temp.
Proof.
  unfold with_end_dates.
  induction l as [|r l IH]; cbn [mapM]; intros df_temp H.
  - apply ret_inj in H. subst. split; constructor.
  - destruct (to_datetime (end_date r)) as [e|t] eqn:Et;
      cbn [bind] in H; [discriminate|].
    destruct (mapM _ l) as [e|rest]; cbn [bind] in H; [discriminate|].
    apply ret_inj in H. subst. destruct (IH rest eq_refl) as [Hm Hf].
    split; [cbn; now rewrite Hm | constructor; [exact Et | exact Hf]].
Qed.






Lemma first_rows_subset (l : list Row) :
  forall earlier r, In r (first_rows_after earlier l) -> In r l.
Proof.
  induction l as [|x l IH]; cbn; intros earlier r H; [exact H|].
  destruct (existsb _ earlier).
  - right. eapply IH, H.
  - destruct H as [->|H]; [now left | right; eapply IH, H].
Qed.




(** * The loaders *)













(** * Further properties of the responders *)

Lemma append_assoc (a b c : string) : (a ++ b) ++ c = a ++ b ++ c.
Proof. induction a as [|x a IH]; cbn; [reflexivity | now rewrite IH]. Qed.







(** ** Blank and non-blank texts *)

Lemma has_ink_rev (s : string) :
  forall acc, has_ink (rev_string acc s) = has_ink acc || has_ink s.
Proof.
  induction s as [|c s IH]; intros acc; cbn.
  - now rewrite orb_false_r.
  - rewrite IH. cbn. now rewrite orb_assoc, (orb_comm (has_ink acc)).
Qed.

Lemma has_ink_lstrip (s : string) : has_ink (lstrip s) = has_ink s.
Proof.
  induction s as [|c s IH]; [reflexivity|]. cbn.
  destruct (is_space c) eqn:E; cbn; rewrite ?E; [exact IH | reflexivity].
Qed.

Lemma has_ink_truthy (s : string) : has_ink s = true -> truthy s = true.
Proof. destruct s; [discriminate | reflexivity]. Qed.

(** A text is taken into the combined context exactly when it has a character
    that is not white space. *)
Lemma non_blank_has_ink (s : string) : non_blank s = has_ink s.
Proof.
  unfold non_blank, strip.
  destruct (has_ink s) eqn:H.
  - rewrite (has_ink_truthy s H). cbn [andb]. apply has_ink_truthy.
    now rewrite has_ink_rev, has_ink_lstrip, has_ink_rev, has_ink_lstrip, H.
  - destruct (truthy s); [|reflexivity]. cbn [andb].
    assert (E : has_ink (rev_string "" (lstrip (rev_string "" (lstrip s))))
                = false)
      by (now rewrite has_ink_rev, has_ink_lstrip, has_ink_rev,
            has_ink_lstrip, H).
    assert (Hl : forall t, has_ink t = false -> lstrip t = "").
    { induction t as [|c t IH]; [reflexivity|]. cbn. intros Ht.
      apply orb_false_iff in Ht as [Hc Ht]. apply negb_false_iff in Hc.
      rewrite Hc. auto. }
    assert (E2 : has_ink (rev_string "" (lstrip s)) = false)
      by (now rewrite has_ink_rev, has_ink_lstrip, H).
    rewrite (Hl _ E2). reflexivity.
Qed.

Lemma analysis_lines_shape (now : Z) (df : DataFrame) (prompt : string)
    (lines : list string) :
  analysis_lines now df prompt = inr lines ->
  exists rest,
    lines = overview_section (rows (drop_duplicates df)) +++ rest.
Proof.
  unfold analysis_lines. intros H.
  repeat match type of H with
         | bind ?m _ = inr _ =>
             destruct m; cbn [bind] in H; [discriminate|]
         end.
  apply ret_inj in H. eexists. symmetry. exact H.
Qed.

(** The analysis text is never blank: it opens with the portfolio overview,
    or it is the error text. *)
Lemma analysis_never_blank (now : Z) (df : DataFrame) (prompt analysis : string) :
  generate_comprehensive_csv_analysis now df prompt = inr analysis ->
  non_blank analysis = true.
Proof.
  unfold generate_comprehensive_csv_analysis, try_except. intros H.
  destruct (analysis_lines now df prompt) as [e|lines] eqn:E; cbn [bind] in H;
    apply ret_inj in H; subst analysis; rewrite non_blank_has_ink.
  - reflexivity.
  - apply analysis_lines_shape in E as [rest ->]. reflexivity.
Qed.

(** X2: when the table is not empty and the completion call succeeds, the answer
    is the endpoint's text without surrounding white space; exactly one call
    is made, and the context it carries opens with the CSV analysis. *)
Theorem llm_answer_returned (env : Env) (prompt : string)
    (analytics_data : Dict) (df : DataFrame) (analysis content : string) :
  dict_get analytics_data "contract_csv" (VFrame empty_frame) = VFrame df ->
  df_empty df = false ->
  generate_comprehensive_csv_analysis (env_now env) df prompt = inr analysis ->
  openai_client env = inr tt ->
  let context :=
    build_combined_context (dict_get (session_state env) "graph_context" "")
      analysis prompt in
  chat_completions_create env system_prompt (user_message prompt context)
  = inr content ->
  run (generate_ai_response env prompt analytics_data)
  = (inr (strip content),
     [ChatCompletion system_prompt (user_message prompt context)])
  /\ prefix (csv_header ++ nl ++ analysis) context = true.
Proof.
  intros Hdf Hne Han Hclient context Hcall. split.
  - unfold run, generate_ai_response, mtry, mbind, lift, mret.
    rewrite Hdf. cbn [frame_of ret]. rewrite Hne, Han.
    unfold generate_openai_response, mtry, mbind, lift, emit, mret.
    rewrite Hclient. fold context. rewrite Hcall. reflexivity.
  - unfold context, build_combined_context.
    rewrite (analysis_never_blank _ _ _ _ Han).
    destruct (non_blank _); cbn [List.app join String.concat];
      apply prefix_app.
Qed.

Lemma llm_answer_returned_witness :
  run (generate_ai_response online "How many contracts?"
         (bundle_of two_contracts))
  = (inr (strip "  • Two contracts.  "),
     [ChatCompletion system_prompt
        (user_message "How many contracts?"
           (context_for online two_contracts "How many contracts?"))])
  /\ prefix
       (csv_header ++ nl ++
        match generate_comprehensive_csv_analysis sample_now two_contracts
                "How many contracts?" with
        | inr analysis => analysis
        | inl _ => ""
        end)
       (context_for online two_contracts "How many contracts?") = true.
Proof.
  apply (llm_answer_returned online "How many contracts?"
           (bundle_of two_contracts) two_contracts);
    vm_compute; reflexivity.
Defined.

(** ** The clock *)

Lemma apply_rule_clock (now1 now2 : Z) (clean : list Row) (rule : Rule) :
  rule <> RuleExpiring6Months ->
  apply_rule now1 clean rule = apply_rule now2 clean rule.
Proof. destruct rule; intros H; try reflexivity. now destruct H. Qed.

Lemma no_expiry_word_no_expiry_rule (prompt_lower : string) :
  any_in expiry_words prompt_lower = false ->
  select_rule prompt_lower <> RuleExpiring6Months.
Proof.
  unfold any_in, expiry_words, select_rule. cbn [existsb].
  intros H. apply orb_false_iff in H as [H _]. rewrite H. cbn [andb].
  repeat match goal with
         | |- context [if ?b then _ else _] => destruct b
         end; discriminate.
Qed.

(** X11: a question without any of the expiry keywords gets the same answer at
    every time of day: the analysis, the template answer and the whole run of
    [generate_ai_response] do not look at the clock. *)
Theorem answers_without_expiry_ignore_clock (now : Z) (env : Env)
    (df : DataFrame) (analytics_data : Dict) (prompt : string) :
  any_in expiry_words (lower prompt) = false ->
  generate_comprehensive_csv_analysis now df prompt
  = generate_comprehensive_csv_analysis (env_now env) df prompt
  /\ generate_simple_csv_response now prompt df
     = generate_simple_csv_response (env_now env) prompt df
  /\ run (generate_ai_response (at_time now env) prompt analytics_data)
     = run (generate_ai_response env prompt analytics_data).
Proof.
  intros H.
  assert (Ha : forall df',
             generate_comprehensive_csv_analysis now df' prompt
             = generate_comprehensive_csv_analysis (env_now env) df' prompt).
  { assert (Hskip : forall section,
               when_asked expiry_words (lower prompt) section = ret [])
      by (intros section; unfold when_asked; now rewrite H).
    intros df'. unfold generate_comprehensive_csv_analysis, analysis_lines.
    now rewrite !Hskip. }
  assert (Hs : forall df',
             generate_simple_csv_response now prompt df'
             = generate_simple_csv_response (env_now env) prompt df').
  { intros df'. unfold generate_simple_csv_response, simple_response_body.
    now rewrite (apply_rule_clock now (env_now env))
      by now apply no_expiry_word_no_expiry_rule. }
  split; [apply Ha|]. split; [apply Hs|].
  unfold run, generate_ai_response, at_time, mtry, mbind, lift.
  cbn [env_now session_state].
  destruct (frame_of _) as [e|frame]; [reflexivity|].
  destruct (df_empty frame); [reflexivity|].
  destruct (generate_comprehensive_csv_analysis_returns
              (env_now env) frame prompt) as [text Ht].
  rewrite Ha, Ht.
  unfold generate_openai_response, mtry, mbind, lift, emit, mret.
  cbn [openai_client chat_completions_create session_state].
  destruct (openai_client env); [reflexivity|].
  destruct (chat_completions_create env _ _); reflexivity.
Qed.

Lemma answers_without_expiry_ignore_clock_witness :
  generate_comprehensive_csv_analysis 0 two_contracts "Top vendors?"
  = generate_comprehensive_csv_analysis (env_now online) two_contracts
      "Top vendors?"
  /\ generate_simple_csv_response 0 "Top vendors?" two_contracts
     = generate_simple_csv_response (env_now online) "Top vendors?"
         two_contracts
  /\ run (generate_ai_response (at_time 0 online) "Top vendors?"
            (bundle_of two_contracts))
     = run (generate_ai_response online "Top vendors?"
              (bundle_of two_contracts)).
Proof.
  apply (answers_without_expiry_ignore_clock 0 online two_contracts
           (bundle_of two_contracts) "Top vendors?").
  reflexivity.
Defined.

(** ** Where the template rules can fail *)






(** ** Questions without keywords, tables without counterparties *)



Lemma fold_step_no_counterparty (l : list Row) :
  (forall r, In r l -> counterparty r = None) ->
  forall acc, fold_left step l acc = acc.
Proof.
  induction l as [|r l IH]; intros H acc; [reflexivity|]. cbn [fold_left].
  unfold step at 2. rewrite (H r (or_introl eq_refl)).
  apply IH. intros r' Hr'. apply H. now right.
Qed.

(** X8: when no row names a counterparty, a question with a vendor keyword gets
    the error text of an out-of-bounds index: the ranking is empty and its
    first row is read all the same. *)
Theorem vendor_question_without_counterparties (now : Z) (df : DataFrame)
    (prompt : string) :
  any_in vendor_words (lower prompt) = true ->
  (forall r, In r (rows df) -> counterparty r = None) ->
  generate_comprehensive_csv_analysis now df prompt
  = inr "Error in CSV analysis: single positional indexer is out-of-bounds".
Proof.
  intros Hv Hnone.
  unfold generate_comprehensive_csv_analysis, analysis_lines, when_asked.
  rewrite Hv. rewrite drop_duplicates_first_rows.
  unfold vendor_section, groupby_counterparty.
  rewrite group_rows_fold, fold_step_no_counterparty.
  - reflexivity.
  - intros r Hr. apply Hnone. eapply first_rows_subset, Hr.
Qed.

Lemma vendor_question_without_counterparties_witness :
  generate_comprehensive_csv_analysis sample_now no_vendor_table
    "Who is our top vendor?"
  = inr "Error in CSV analysis: single positional indexer is out-of-bounds".
Proof.
  apply (vendor_question_without_counterparties sample_now no_vendor_table
           "Who is our top vendor?"); [reflexivity|].
  intros r [<-|[]]. reflexivity.
Defined.

(** * Further properties of the table computations *)

(** ** First rows *)

Lemma first_rows_after_spec (l : list Row) :
  forall earlier r,
    In r (first_rows_after earlier l) ->
    exists before after,
      l = before +++ r :: after
      /\ ~ In (contract_id r) (map contract_id (earlier +++ before)).
Proof.
  induction l as [|x l IH]; cbn [first_rows_after]; intros earlier r H;
    [contradiction|].
  assert (Hrec : In r (first_rows_after (earlier +++ [x]) l) ->
                 exists before after,
                   x :: l = before +++ r :: after
                   /\ ~ In (contract_id r)
                          (map contract_id (earlier +++ before))).
  { intros Hin. destruct (IH _ _ Hin) as (b & a & -> & Hn).
    exists (x :: b), a. split; [reflexivity|].
    now rewrite <- app_assoc in Hn. }
  destruct (existsb _ earlier) eqn:E; [now apply Hrec|].
  destruct H as [->|H]; [|now apply Hrec].
  exists [], l. split; [reflexivity|]. rewrite app_nil_r.
  rewrite earlier_mem in E. intros Hin. apply cell_mem_In in Hin. congruence.
Qed.

Lemma first_rows_after_ids (l : list Row) :
  forall earlier,
    NoDup (map contract_id (first_rows_after earlier l))
    /\ (forall a,
          In a (map contract_id (first_rows_after earlier l))
          <-> In a (map contract_id l)
              /\ ~ In a (map contract_id earlier)).
Proof.
  induction l as [|x l IH]; cbn [first_rows_after]; intros earlier.
  - split; [constructor | cbn; tauto].
  - destruct (IH (earlier +++ [x])) as [Hnd Hids].
    rewrite earlier_mem.
    destruct (cell_mem (contract_id x) (map contract_id earlier)) eqn:E.
    + split; [exact Hnd|]. intros a. rewrite Hids, map_app, in_app_iff.
      apply cell_mem_In in E. cbn. intuition congruence.
    + assert (Hx : ~ In (contract_id x) (map contract_id earlier))
        by (intros Hin; apply cell_mem_In in Hin; congruence).
      split.
      * cbn. constructor; [|exact Hnd]. rewrite Hids, map_app, in_app_iff.
        cbn. tauto.
      * intros a. cbn [map In]. rewrite Hids, map_app, in_app_iff. cbn.
        destruct (cell_eqb a (contract_id x)) eqn:Ea.
        -- apply cell_eqb_eq in Ea. subst a. tauto.
        -- assert (a <> contract_id x)
             by (intros ->; now rewrite cell_eqb_refl in Ea).
           intuition congruence.
Qed.

(** X5: the table both responders work on holds every identifier of the input
    once, and each of its rows is the first input row with its identifier. *)
Theorem deduplicated_table_ids (df : DataFrame) :
  let clean := rows (drop_duplicates df) in
  NoDup (map contract_id clean)
  /\ (forall a,
        In a (map contract_id clean) <-> In a (map contract_id (rows df)))
  /\ (forall r,
        In r clean ->
        exists before after,
          rows df = before +++ r :: after
          /\ ~ In (contract_id r) (map contract_id before)).
Proof.
  cbv zeta. rewrite drop_duplicates_first_rows. unfold first_rows.
  destruct (first_rows_after_ids (rows df) []) as [Hnd Hids].
  split; [exact Hnd|]. split.
  - intros a. rewrite Hids. cbn. tauto.
  - intros r Hr. apply first_rows_after_spec in Hr. exact Hr.
Qed.

Lemma drop_seen_snoc_dup (l : list Row) (r : Row) :
  forall seen,
    In (contract_id r) seen \/ In (contract_id r) (map contract_id l) ->
    drop_seen seen (l +++ [r]) = drop_seen seen l.
Proof.
  induction l as [|x l IH]; intros seen H; cbn.
  - destruct H as [H|[]]. apply cell_mem_In in H. now rewrite H.
  - destruct (cell_mem (contract_id x) seen) eqn:E.
    + apply IH. destruct H as [H|[H|H]]; auto.
      left. rewrite <- H. now apply cell_mem_In.
    + f_equal. apply IH. cbn. destruct H as [H|[H|H]]; auto.
Qed.

(** X4: a further row for a contract that is already in the table changes no
    answer of the two chatbot responders. *)
Theorem repeated_contract_changes_no_answer (now : Z) (prompt : string)
    (df : DataFrame) (r : Row) :
  In (contract_id r) (map contract_id (rows df)) ->
  let df' := mkFrame (has_type df) (rows df +++ [r]) in
  generate_comprehensive_csv_analysis now df' prompt
  = generate_comprehensive_csv_analysis now df prompt
  /\ generate_simple_csv_response now prompt df'
     = generate_simple_csv_response now prompt df.
Proof.
  intros H df'.
  assert (E : drop_duplicates df' = drop_duplicates df).
  { unfold drop_duplicates, df'. cbn [rows has_type]. f_equal.
    apply drop_seen_snoc_dup. now right. }
  unfold generate_comprehensive_csv_analysis, analysis_lines,
    generate_simple_csv_response, simple_response_body.
  now rewrite E.
Qed.

Lemma repeated_contract_changes_no_answer_witness :
  generate_comprehensive_csv_analysis sample_now with_duplicate
    "Top vendors and payment terms?"
  = generate_comprehensive_csv_analysis sample_now two_contracts
      "Top vendors and payment terms?"
  /\ generate_simple_csv_response sample_now "Top vendors and payment terms?"
       with_duplicate
     = generate_simple_csv_response sample_now "Top vendors and payment terms?"
         two_contracts.
Proof.
  apply (repeated_contract_changes_no_answer sample_now
           "Top vendors and payment terms?" two_contracts ibm_again).
  cbn. tauto.
Defined.

(** ** The vendor ranking *)

Lemma insert_by_perm {A : Type} (le : A -> A -> bool) (x : A) (l : list A) :
  Permutation (insert_by le x l) (x :: l).
Proof.
  induction l as [|y l IH]; cbn; [reflexivity|].
  destruct (le x y); [reflexivity|].
  rewrite IH. apply perm_swap.
Qed.

Lemma sort_by_perm {A : Type} (le : A -> A -> bool) (l : list A) :
  Permutation (sort_by le l) l.
Proof.
  unfold sort_by. induction l as [|x l IH]; cbn; [reflexivity|].
  rewrite insert_by_perm. now constructor.
Qed.









(** ** What the groups add up to *)

Lemma sum_totals_perm (l l' : list VendorAgg) :
  Permutation l l' ->
  sum_totals l = sum_totals l' /\ sum_counts l = sum_counts l'.
Proof.
  unfold sum_totals, sum_counts.
  induction 1; cbn in *; try lia.
Qed.

Lemma group_add_sums (c : string) (r : Row) (l : list VendorAgg) :
  sum_totals (group_add c r l) = sum_totals l + total_value_usd r
  /\ sum_counts (group_add c r l) = sum_counts l + 1.
Proof.
  unfold sum_totals, sum_counts.
  induction l as [|g l IH]; cbn; [lia|].
  destruct (String.eqb (va_vendor g) c); cbn; lia.
Qed.

Lemma fold_step_sums (l : list Row) :
  forall acc,
    sum_totals (fold_left step l acc)
    = sum_totals acc + col_sum total_value_usd (filter has_counterparty l)
    /\ sum_counts (fold_left step l acc)
       = sum_counts acc + len (filter has_counterparty l).
Proof.
  unfold len.
  induction l as [|r l IH]; intros acc; cbn [fold_left filter].
  - cbn. lia.
  - destruct (IH (step acc r)) as [Ht Hc]. rewrite Ht, Hc.
    unfold step, has_counterparty.
    destruct (counterparty r) as [c|].
    + destruct (group_add_sums c r acc) as [-> ->].
      cbn [col_sum fold_right List.length]. unfold col_sum. lia.
    + lia.
Qed.



(** * Further properties of the risk assessment *)



Lemma filter_len_le {A : Type} (p : A -> bool) (l : list A) :
  0 <= len (filter p l) <= len l.
Proof.
  unfold len. pose proof (filter_length_le p l). lia.
Qed.

Lemma list_max_spec (l : list Z) (m : Z) :
  list_max l = Some m -> In m l /\ forall x, In x l -> x <= m.
Proof.
  destruct l as [|a l]; [discriminate|]. cbn [list_max]. intros H.
  injection H as <-. induction l as [|b l [Hin Hmax]]; cbn [fold_right].
  - split; [now left|]. intros x [Hx|[]]. lia.
  - split.
    + destruct (Z.max_spec b (fold_right Z.max a l)) as [[_ ->]|[_ ->]].
      * destruct Hin as [Hin|Hin]; [now left | now right; right].
      * right. now left.
    + intros x Hx.
      assert (Hc : x = b \/ x <= fold_right Z.max a l).
      { destruct Hx as [Hx|[Hx|Hx]].
        - right. apply Hmax. now left.
        - now left.
        - right. apply Hmax. now right. }
      lia.
Qed.

(** X15: what a completed risk assessment of a non-empty table holds: the number
    of rows, between zero and that many active and expiring contracts, and as
    concentration the largest counterparty's amount as a percentage of the
    value of the rows that name a counterparty (rows without one are left out
    of the denominator, unlike in the chatbot's analysis); NaN when no row
    names a counterparty. *)
Theorem risk_assessment_figures (now : Z) (df : DataFrame)
    (risk : list (string * Number)) :
  generate_risk_assessment now df = inr risk ->
  df_empty df = false ->
  exists active pct expiring,
    risk = [ ("total_contracts", NInt (len (rows df)));
             ("active_contracts", NInt active);
             ("vendor_concentration_risk", NFloat pct);
             ("expiring_soon", NInt expiring) ]
    /\ 0 <= active <= len (rows df)
    /\ 0 <= expiring <= len (rows df)
    /\ ((forall r, In r (rows df) -> counterparty r = None) -> pct = FNaN)
    /\ (forall c,
          is_vendor c (rows df) ->
          exists top,
            top_vendor_total (rows df) top
            /\ pct = fmul (truediv top
                             (col_sum total_value_usd
                                (filter has_counterparty (rows df)))) 100).
Proof.
  unfold generate_risk_assessment. intros H Hne. rewrite Hne in H.
  destruct (with_end_dates (rows df)) as [e|df_temp] eqn:Et;
    cbn [bind] in H; [discriminate|].
  apply ret_inj in H. subst risk. do 3 eexists.
  split; [reflexivity|].
  split; [apply filter_len_le|].
  split.
  { pose proof (filter_len_le (fun p => fle (months_to_expiry now (snd p)) 6)
                  df_temp) as Hb.
    apply with_end_dates_inr in Et as [Hm _].
    unfold expiring_within. rewrite <- Hm. unfold len in *.
    rewrite length_map. exact Hb. }
  destruct (groups_of_group_rows (rows df)) as (_ & Hin & Hall).
  assert (Hmem : forall g, In g (groupby_counterparty (rows df))
                           <-> In g (group_rows (rows df))).
  { intros g. unfold groupby_counterparty. apply sort_by_In. }
  split.
  - intros Hnone. unfold concentration_pct, groupby_counterparty.
    rewrite group_rows_fold, fold_step_no_counterparty by exact Hnone.
    reflexivity.
  - intros c Hc. unfold concentration_pct.
    destruct (list_max (map va_total (groupby_counterparty (rows df))))
      as [m|] eqn:Em.
    + apply list_max_spec in Em as [Hm Hmax].
      exists m. split.
      * split.
        -- apply in_map_iff in Hm as (g & <- & Hg). apply Hmem in Hg.
           destruct (Hin g Hg) as [Hv Ht]. exists (va_vendor g). auto.
        -- intros c' Hc'. apply Hall in Hc'.
           apply in_map_iff in Hc' as (g & <- & Hg).
           destruct (Hin g Hg) as [_ <-]. apply Hmax.
           apply in_map. now apply Hmem.
      * f_equal. f_equal.
        assert (P : Permutation (groupby_counterparty (rows df))
                                (group_rows (rows df)))
          by apply sort_by_perm.
        destruct (sum_totals_perm _ _ P) as [Hs _].
        unfold sum_totals in Hs. rewrite Hs.
        fold (sum_totals (group_rows (rows df))).
        rewrite group_rows_fold.
        destruct (fold_step_sums (rows df) []) as [-> _]. cbn. lia.
    + exfalso. apply Hall in Hc. apply in_map_iff in Hc as (g & _ & Hg).
      apply Hmem in Hg.
      destruct (groupby_counterparty (rows df)); [contradiction|discriminate].
Qed.

Lemma risk_assessment_figures_witness :
  exists active pct expiring,
    [ ("total_contracts", NInt 3);
      ("active_contracts", NInt 3);
      ("vendor_concentration_risk", NFloat (FFin (240000 # 3200)));
      ("expiring_soon", NInt 2) ]
    = [ ("total_contracts", NInt (len (rows with_duplicate)));
        ("active_contracts", NInt active);
        ("vendor_concentration_risk", NFloat pct);
        ("expiring_soon", NInt expiring) ]
    /\ 0 <= active <= len (rows with_duplicate)
    /\ 0 <= expiring <= len (rows with_duplicate)
    /\ ((forall r, In r (rows with_duplicate) -> counterparty r = None) ->
        pct = FNaN)
    /\ (forall c,
          is_vendor c (rows with_duplicate) ->
          exists top,
            top_vendor_total (rows with_duplicate) top
            /\ pct = fmul (truediv top
                             (col_sum total_value_usd
                                (filter has_counterparty
                                        (rows with_duplicate)))) 100).
Proof.
  apply (risk_assessment_figures sample_now with_duplicate);
    vm_compute; reflexivity.
Defined.

(** ** Buckets over time *)

Lemma fle_mono (x : pyfloat) (n m : Z) :
  n <= m -> fle x n = true -> fle x m = true.
Proof.
  destruct x as [|neg|q]; cbn; auto.
  rewrite !Qle_bool_iff. intros Hnm H. eapply Qle_trans; [exact H|].
  unfold Qle. cbn. lia.
Qed.

Lemma days_until_mono (now now' t : Z) :
  now <= now' -> days_until now' t <= days_until now t.
Proof.
  intros H. unfold days_until.
  apply Z.div_le_mono; [reflexivity | lia].
Qed.

Lemma months_fle_days (now n : Z) (t : Z) :
  fle (months_to_expiry now (Some t)) n = (days_until now t <=? 30 * n).
Proof.
  cbn [months_to_expiry truediv fle]. unfold Qle_bool, inject_Z.
  cbn [Qnum Qden]. apply eq_true_iff_eq. rewrite !Z.leb_le. lia.
Qed.

(** X13: the buckets have no lower bound: a contract that has already ended is in
    every bucket, a contract in the 6-month bucket is in the 24-month one,
    and no contract leaves a bucket as time goes by. *)
Theorem expiring_buckets_only_grow (now : Z) (l : list (Row * option Z)) :
  (forall r t n,
     In (r, Some t) l -> t <= now -> 0 <= n ->
     In (r, Some t) (expiring_within now n l))
  /\ (forall p,
        In p (expiring_within now 6 l) -> In p (expiring_within now 24 l))
  /\ (forall now' n p,
        now <= now' ->
        In p (expiring_within now n l) -> In p (expiring_within now' n l)).
Proof.
  unfold expiring_within. split; [|split].
  - intros r t n Hin Ht Hn. apply filter_In. split; [exact Hin|].
    cbn [snd]. rewrite months_fle_days. apply Z.leb_le.
    assert (days_until now t <= 0); [|lia].
    unfold days_until. apply Z.div_le_upper_bound; [reflexivity | lia].
  - intros p Hp. apply filter_In in Hp as [Hin Hp]. apply filter_In.
    split; [exact Hin|]. eapply fle_mono; [|exact Hp]. lia.
  - intros now' n [r [t|]] Hnow Hp; apply filter_In in Hp as [Hin Hp];
      apply filter_In; (split; [exact Hin|]); cbn [snd] in *.
    + rewrite months_fle_days in *. apply Z.leb_le in Hp. apply Z.leb_le.
      pose proof (days_until_mono now now' t Hnow). lia.
    + discriminate.
Qed.

(** * Further properties of the loaders *)

Lemma mapM_all {A B : Type} (f : A -> Res B) (l : list A) :
  Forall (fun a => exists b, f a = inr b) l ->
  exists bs, mapM f l = inr bs /\ Forall2 (fun a b => f a = inr b) l bs.
Proof.
  induction 1 as [|a l [b Hb] _ (bs & Hbs & Hall)]; cbn [mapM].
  - exists []. split; [reflexivity | constructor].
  - rewrite Hb, Hbs. cbn. exists (b :: bs). split; [reflexivity|].
    now constructor.
Qed.

(** X18: when the insights file can be read and each of its non-blank lines is
    valid JSON, both readers of the file return the values of the non-blank
    lines, one per line and in the order of the file. *)
Theorem insights_of_a_valid_file (fs : FileSystem) (lines : list JsonLine) :
  cfo_contract_insights_jsonl fs = Present (inr lines) ->
  Forall (fun l => exists v, loads l = inr v) (filter not_blank_line lines) ->
  exists insights,
    load_cfo_jsonl_insights fs = inr insights
    /\ load_contract_insights fs = inr insights
    /\ Forall2 (fun l v => loads l = inr v)
               (filter not_blank_line lines) insights.
Proof.
  intros Hf Hall. apply mapM_all in Hall as (insights & Hm & H2).
  exists insights.
  unfold load_cfo_jsonl_insights, load_contract_insights.
  rewrite Hf. cbn [path_exists read_file bind].
  unfold not_blank_line in *. rewrite Hm. cbn. auto.
Qed.

Lemma insights_of_a_valid_file_witness :
  exists insights,
    load_cfo_jsonl_insights fs_two_lines = inr insights
    /\ load_contract_insights fs_two_lines = inr insights
    /\ Forall2 (fun l v => loads l = inr v)
               (filter not_blank_line two_lines) insights.
Proof.
  apply (insights_of_a_valid_file fs_two_lines two_lines); [reflexivity|].
  cbn. repeat constructor; eexists; reflexivity.
Defined.

(** X17: the uploaded file shadows the demo file: when it can be read its table is
    the unified table, when it exists but cannot be read or parsed the unified
    table is empty even though the demo file may be sound, and only when it
    is missing does the demo file count. *)
Theorem uploaded_file_shadows_demo (fs : FileSystem) :
  (forall df,
     uploaded_contracts_csv fs = Present (inr df) ->
     load_unified_contracts fs = inr df)
  /\ (forall e,
        uploaded_contracts_csv fs = Present (inl e) ->
        load_unified_contracts fs = inr empty_frame)
  /\ (uploaded_contracts_csv fs = Missing ->
      load_unified_contracts fs = load_demo_contracts fs).
Proof.
  unfold load_unified_contracts, load_demo_contracts.
  split; [|split]; intros; rewrite H; reflexivity.
Qed.

(** X3: the bundle of [load_cfo_analytics_data] never holds an empty table: under
    "contract_csv" there is [None] or a table with rows.  So for such a bundle
    [generate_ai_response] never takes its no-data branch: without data the
    answer is the apology about the missing attribute, with data the answer
    of the completion step. *)
Theorem loaded_bundle_skips_no_data_branch (fs : FileSystem) (now : Z)
    (mode : string) (analytics_data : Dict) (env : Env) (prompt : string) :
  load_cfo_analytics_data fs now mode = inr analytics_data ->
  (dict_lookup analytics_data "contract_csv" = Some VNone
   /\ run (generate_ai_response env prompt analytics_data)
      = (inr (apology none_has_no_empty), []))
  \/ (exists df analysis,
        dict_lookup analytics_data "contract_csv" = Some (VFrame df)
        /\ df_empty df = false
        /\ generate_comprehensive_csv_analysis (env_now env) df prompt
           = inr analysis
        /\ run (generate_ai_response env prompt analytics_data)
           = generate_openai_response env prompt
               (build_combined_context
                  (dict_get (session_state env) "graph_context" "")
                  analysis prompt) []).
Proof.
  intros H.
  assert (Hcases :
    dict_lookup analytics_data "contract_csv" = Some VNone
    \/ exists df, dict_lookup analytics_data "contract_csv" = Some (VFrame df)
                  /\ df_empty df = false).
  { unfold load_cfo_analytics_data in H.
    assert (Hgraph : forall df d,
              df_empty df = false ->
              with_graph_insights fs now df
                [ ("contract_csv", VNone); ("cfo_insights", VList []);
                  ("risk_assessment", VDict []);
                  ("executive_summary", VDict []) ] = inr d ->
              dict_lookup d "contract_csv" = Some (VFrame df)).
    { intros df d _ Hd. unfold with_graph_insights in Hd.
      destruct (load_cfo_jsonl_insights fs) as [e|[|i l]];
        cbn [bind] in Hd; [discriminate | |].
      - apply ret_inj in Hd. subst d. reflexivity.
      - destruct (generate_risk_assessment now df); cbn [bind] in Hd;
          [discriminate|].
        destruct (generate_executive_summary df (i :: l)); cbn [bind] in Hd;
          [discriminate|].
        apply ret_inj in Hd. subst d. reflexivity. }
    destruct (String.eqb mode "unified").
    { destruct (load_unified_contracts fs) as [e|df]; cbn [bind] in H;
        [discriminate|].
      destruct (df_empty df) eqn:Ee; cbn [negb] in H.
      - apply ret_inj in H. subst. now left.
      - right. exists df. split; [eapply Hgraph; eauto | exact Ee]. }
    destruct (String.eqb mode "demo").
    { destruct (load_demo_contracts fs) as [e|df]; cbn [bind] in H;
        [discriminate|].
      destruct (df_empty df) eqn:Ee; cbn [negb] in H;
        apply ret_inj in H; subst; [now left|].
      right. exists df. split; [reflexivity | exact Ee]. }
    destruct (String.eqb mode "live").
    { destruct (load_uploaded_contracts fs) as [e|df]; cbn [bind] in H;
        [discriminate|].
      destruct (df_empty df) eqn:Ee; cbn [negb] in H.
      - apply ret_inj in H. subst. now left.
      - right. exists df. split; [eapply Hgraph; eauto | exact Ee]. }
    apply ret_inj in H. subst. now left. }
  destruct Hcases as [Hn|(df & Hdf & Hne)].
  - left. split; [exact Hn|].
    unfold run, generate_ai_response, mtry, mbind, lift, mret, dict_get.
    rewrite Hn. reflexivity.
  - right.
    destruct (generate_comprehensive_csv_analysis_returns
                (env_now env) df prompt) as [analysis Ha].
    exists df, analysis. repeat split; try assumption.
    unfold run, generate_ai_response, mtry, mbind, lift, mret, dict_get.
    rewrite Hdf. cbn [frame_of ret]. rewrite Hne, Ha.
    destruct (generate_openai_response_returns env prompt
                (build_combined_context
                   match dict_lookup (session_state env) "graph_context" with
                   | Some v => v
                   | None => ""
                   end analysis prompt) [])
      as (answer & log' & -> & _).
    reflexivity.
Qed.

Lemma loaded_bundle_skips_no_data_branch_witness :
  (dict_lookup (bundle_of_none) "contract_csv" = Some VNone
   /\ run (generate_ai_response online "Total value?" bundle_of_none)
      = (inr (apology none_has_no_empty), []))
  \/ (exists df analysis,
        dict_lookup bundle_of_none "contract_csv" = Some (VFrame df)
        /\ df_empty df = false
        /\ generate_comprehensive_csv_analysis (env_now online) df
             "Total value?" = inr analysis
        /\ run (generate_ai_response online "Total value?" bundle_of_none)
           = generate_openai_response online "Total value?"
               (build_combined_context
                  (dict_get (session_state online) "graph_context" "")
                  analysis "Total value?") []).
Proof.
  apply (loaded_bundle_skips_no_data_branch fs_empty sample_now "unified").
  reflexivity.
Defined.

(** * The graph context *)

Lemma session_set_get (session : list (string * string)) (key text : string) :
  dict_lookup (session_set session key text) key = Some text.
Proof.
  induction session as [|[k w] t IH]; cbn.
  - now rewrite String.eqb_refl.
  - destruct (String.eqb k key) eqn:E; cbn; rewrite E; [reflexivity|exact IH].
Qed.

Lemma session_set_other (session : list (string * string))
    (key text k : string) :
  k <> key ->
  dict_lookup (session_set session key text) k = dict_lookup session k.
Proof.
  intros Hne. induction session as [|[k0 w] t IH]; cbn.
  - destruct (String.eqb_spec key k); [congruence | reflexivity].
  - destruct (String.eqb_spec k0 key) as [->|Hk]; cbn.
    + destruct (String.eqb_spec key k); [congruence | reflexivity].
    + destruct (String.eqb k0 k); [reflexivity | exact IH].
Qed.

Lemma build_knowledge_graph_helper (context_file : File string)
    (session : list (string * string)) (outcome : GraphLoad) (text : string) :
  build_knowledge_graph context_file session = inr outcome ->
  context_file = Present (inr text) ->
  dict_get (load_session outcome) "graph_context" "" = text
  /\ load_ok outcome = true.
Proof.
  intros H ->. cbn in H. injection H as <-. cbn [load_session load_ok].
  unfold dict_get. now rewrite session_set_get.
Qed.

(** X19: [build_knowledge_graph] always returns.  It returns [True] exactly when
    the context file exists and can be read, and then the session's graph
    context is the text of the file and no other entry of the session has
    changed; otherwise the session is left as it was and one error message is
    shown. *)
Theorem build_knowledge_graph_outcome (context_file : File string)
    (session : list (string * string)) :
  exists outcome,
    build_knowledge_graph context_file session = inr outcome
    /\ (load_ok outcome = true
        <-> exists text, context_file = Present (inr text))
    /\ (forall text,
          context_file = Present (inr text) ->
          dict_get (load_session outcome) "graph_context" "" = text
          /\ load_errors outcome = []
          /\ forall k,
               k <> "graph_context" ->
               dict_lookup (load_session outcome) k = dict_lookup session k)
    /\ (load_ok outcome = false ->
        load_session outcome = session
        /\ List.length (load_errors outcome) = 1%nat).
Proof.
  unfold build_knowledge_graph.
  destruct context_file as [|[e|text]]; cbn; eexists;
    (split; [reflexivity|]); cbn.
  - split; [split; [discriminate | intros [t Ht]; discriminate]|].
    split; [discriminate | auto].
  - split; [split; [discriminate | intros [t Ht]; discriminate]|].
    split; [discriminate | auto].
  - split; [split; eauto|].
    split; [|discriminate].
    intros t Ht. injection Ht as <-. unfold dict_get.
    rewrite session_set_get. split; [reflexivity|]. split; [reflexivity|].
    intros k Hk. now apply session_set_other.
Qed.

(** X20: a graph context that [build_knowledge_graph] has loaded and that is not
    blank is part of the context of every later completion call, under its
    header; a blank one adds nothing after the CSV part but the
    instructions. *)
Theorem loaded_graph_context_reaches_prompt (context_file : File string)
    (session : list (string * string)) (outcome : GraphLoad)
    (text analysis prompt : string) :
  build_knowledge_graph context_file session = inr outcome ->
  context_file = Present (inr text) ->
  let graph_context := dict_get (load_session outcome) "graph_context" "" in
  (has_ink text = true ->
   contains (graph_header ++ nl ++ text)
     (build_combined_context graph_context analysis prompt) = true)
  /\ (has_ink text = false ->
      build_combined_context graph_context analysis prompt
      = build_combined_context "" analysis prompt).
Proof.
  intros Hb Hf.
  destruct (build_knowledge_graph_helper context_file session outcome text
              Hb Hf) as [Hg _].
  cbv zeta. rewrite Hg. unfold build_combined_context.
  rewrite (non_blank_has_ink text). split; intros Hi; rewrite Hi.
  - destruct (non_blank analysis); cbn [List.app join String.concat].
    + change (contains (graph_header ++ nl ++ text)
                ((csv_header ++ nl ++ analysis)
                   ++ (nl ++ nl) ++ (graph_header ++ nl ++ text)
                   ++ (nl ++ nl) ++ analysis_instructions) = true).
      rewrite <- (append_assoc (csv_header ++ nl ++ analysis) (nl ++ nl)).
      apply contains_app.
    + apply (contains_app (graph_header ++ nl ++ text) ""
               ((nl ++ nl) ++ analysis_instructions)).
  - reflexivity.
Qed.

Lemma loaded_graph_context_reaches_prompt_witness :
  (has_ink "IBM leads." = true ->
   contains (graph_header ++ nl ++ "IBM leads.")
     (build_combined_context
        (dict_get (session_set [("graph_context", "")] "graph_context"
                     "IBM leads.") "graph_context" "")
        "analysis" "question") = true)
  /\ (has_ink "IBM leads." = false ->
      build_combined_context
        (dict_get (session_set [("graph_context", "")] "graph_context"
                     "IBM leads.") "graph_context" "")
        "analysis" "question"
      = build_combined_context "" "analysis" "question").
Proof.
  apply (loaded_graph_context_reaches_prompt (Present (inr "IBM leads."))
           [("graph_context", "")]
           (mkLoad true
              (session_set [("graph_context", "")] "graph_context"
                 "IBM leads.") [])
           "IBM leads." "analysis" "question");
    reflexivity.
Defined.

(** * executive.py: the insights by dimension *)

Lemma group_fold_inl (l : list InsightData) (e : Exn) :
  fold_left group_step l (inl e) = inl e.
Proof. induction l as [|i l IH]; cbn; [reflexivity | exact IH]. Qed.

Lemma of_dimension_snoc (d : string) (l : list InsightData) (i : InsightData) :
  of_dimension d (l +++ [i])
  = of_dimension d l
    +++ (if cell_eqb (dimension i) (Some d) then [i] else []).
Proof.
  unfold of_dimension. rewrite filter_app. cbn.
  now destruct (cell_eqb (dimension i) (Some d)).
Qed.

Lemma dimension_add_keys (dim : string) (i : InsightData)
    (acc : list (string * list InsightData)) (x : string) :
  In x (map fst (dimension_add dim i acc))
  <-> x = dim \/ In x (map fst acc).
Proof.
  induction acc as [|[d g] acc IH]; cbn.
  - intuition.
  - destruct (String.eqb_spec d dim) as [E|E]; cbn.
    + rewrite E. intuition.
    + rewrite IH. intuition.
Qed.

Lemma dimension_add_NoDup (dim : string) (i : InsightData)
    (acc : list (string * list InsightData)) :
  NoDup (map fst acc) -> NoDup (map fst (dimension_add dim i acc)).
Proof.
  induction acc as [|[d g] acc IH]; cbn; intros H.
  - constructor; [intros [] | constructor].
  - inversion H as [|? ? Hn Hd]; subst.
    destruct (String.eqb_spec d dim) as [E|E]; cbn.
    + now constructor.
    + constructor; [|now apply IH].
      rewrite dimension_add_keys. intros [E'|E']; [now subst | contradiction].
Qed.

Lemma dimension_add_In (dim : string) (i : InsightData)
    (acc : list (string * list InsightData)) (d : string)
    (g : list InsightData) :
  NoDup (map fst acc) ->
  In (d, g) (dimension_add dim i acc) ->
  (d <> dim /\ In (d, g) acc)
  \/ (d = dim
      /\ ((exists g0, In (dim, g0) acc /\ g = g0 +++ [i])
          \/ (~ In dim (map fst acc) /\ g = [i]))).
Proof.
  induction acc as [|[d1 g1] acc IH]; cbn; intros Hnd Hin.
  - destruct Hin as [Hin|[]]. injection Hin as <- <-. right. tauto.
  - inversion Hnd as [|? ? Hn Hd]; subst.
    destruct (String.eqb_spec d1 dim) as [E|E].
    + subst d1. destruct Hin as [Hin|Hin].
      * injection Hin as <- <-. right. split; [reflexivity|]. left.
        exists g1. auto.
      * left. split; [|now right]. intros ->. apply Hn.
        change dim with (fst (dim, g)). now apply in_map.
    + destruct Hin as [Hin|Hin].
      * injection Hin as <- <-. left. auto.
      * destruct (IH Hd Hin) as [[H1 H2]|[H1 [(g0 & H2 & H3)|[H2 H3]]]].
        -- left. auto.
        -- right. split; [exact H1|]. left. exists g0. auto.
        -- right. split; [exact H1|]. right. split; [|exact H3].
           intros [E'|E']; [congruence | contradiction].
Qed.

Lemma dimension_add_perm (dim : string) (i : InsightData)
    (acc : list (string * list InsightData)) :
  Permutation (List.concat (map snd (dimension_add dim i acc)))
              (List.concat (map snd acc) +++ [i]).
Proof.
  induction acc as [|[d g] acc IH]; cbn; [reflexivity|].
  destruct (String.eqb d dim); cbn.
  - rewrite <- !app_assoc. apply Permutation_app_head.
    apply Permutation_app_comm.
  - rewrite IH. now rewrite app_assoc.
Qed.

Lemma dimensions_of_step (acc : list (string * list InsightData))
    (done : list InsightData) (i : InsightData) (dim : string) :
  dimension i = Some dim ->
  dimensions_of acc done ->
  dimensions_of (dimension_add dim i acc) (done +++ [i]).
Proof.
  intros Hd (Hnd & Hg & Hall & Hp).
  split; [now apply dimension_add_NoDup|]. split; [|split].
  - intros d g Hin. rewrite of_dimension_snoc, Hd.
    destruct (dimension_add_In dim i acc d g Hnd Hin)
      as [[H1 H2]|[H1 [(g0 & H2 & H3)|[H2 H3]]]].
    + destruct (Hg d g H2) as [Hne ->]. split; [exact Hne|].
      destruct (cell_eqb (Some dim) (Some d)) eqn:E.
      * apply cell_eqb_eq in E. congruence.
      * now rewrite app_nil_r.
    + subst d g. rewrite cell_eqb_refl.
      destruct (Hg dim g0 H2) as [_ <-].
      split; [now destruct g0 | reflexivity].
    + subst d g. rewrite cell_eqb_refl. split; [discriminate|].
      assert (E : of_dimension dim done = []).
      { unfold of_dimension.
        destruct (filter _ done) as [|j l] eqn:Ef; [reflexivity|].
        assert (Hj : In j (filter
                             (fun i0 => cell_eqb (dimension i0) (Some dim))
                             done)) by (rewrite Ef; now left).
        apply filter_In in Hj as [Hj Hc]. apply cell_eqb_eq in Hc.
        destruct (Hall j Hj) as (d' & Hd' & Hk). congruence. }
      now rewrite E.
  - intros j Hj. apply in_app_or in Hj as [Hj|[<-|[]]].
    + destruct (Hall j Hj) as (d & Hd' & Hk). exists d.
      split; [exact Hd'|]. apply dimension_add_keys. now right.
    + exists dim. split; [exact Hd|]. apply dimension_add_keys. now left.
  - rewrite dimension_add_perm. now apply Permutation_app_tail.
Qed.

Lemma group_step_inr (acc : list (string * list InsightData))
    (i : InsightData) :
  group_step (inr acc) i
  = match dimension i with
    | Some dim => inr (dimension_add dim i acc)
    | None => inl (mkExn "KeyError" "'dimension'")
    end.
Proof. unfold group_step. cbn. now destruct (dimension i). Qed.

Lemma group_fold_spec (l : list InsightData) :
  forall acc done,
    dimensions_of acc done ->
    (forall groups,
       fold_left group_step l (inr acc) = inr groups ->
       dimensions_of groups (done +++ l))
    /\ ((exists e, fold_left group_step l (inr acc) = inl e)
        <-> exists i, In i l /\ dimension i = None).
Proof.
  induction l as [|i l IH]; intros acc done Hinv; cbn [fold_left].
  - rewrite app_nil_r. split.
    + intros groups H. injection H as <-. exact Hinv.
    + split; [intros [e H]; discriminate | intros (i & [] & _)].
  - rewrite group_step_inr.
    destruct (dimension i) as [dim|] eqn:Ed.
    + destruct (IH _ _ (dimensions_of_step acc done i dim Ed Hinv))
        as [Hok Hbad].
      replace (done +++ i :: l) with ((done +++ [i]) +++ l)
        by (now rewrite <- app_assoc).
      split; [exact Hok|]. split.
      * intros He. apply Hbad in He as (j & Hj & Hn).
        exists j. split; [now right | exact Hn].
      * intros (j & [Hj|Hj] & Hn); [congruence|].
        apply Hbad. eauto.
    + rewrite group_fold_inl. split; [discriminate|].
      split; [|eauto]. intros _. exists i. split; [now left | exact Ed].
Qed.

(** X21: grouping the insights by dimension loses and repeats nothing: every
    dimension is listed once, its group is the list of its records in their
    original order, and the groups together are a rearrangement of the input.
    The grouping raises exactly when some record has no dimension. *)
Theorem insights_grouped_by_dimension (cfo_insights : list InsightData) :
  ((exists e, group_by_dimension cfo_insights = inl e)
   <-> exists i, In i cfo_insights /\ dimension i = None)
  /\ (forall dimensions,
        group_by_dimension cfo_insights = inr dimensions ->
        NoDup (map fst dimensions)
        /\ (forall d g,
              In (d, g) dimensions ->
              g <> [] /\ g = of_dimension d cfo_insights)
        /\ Permutation (List.concat (map snd dimensions)) cfo_insights).
Proof.
  assert (H0 : dimensions_of [] []).
  { split; [constructor|]. split; [intros d g []|].
    split; [intros i [] | constructor]. }
  destruct (group_fold_spec cfo_insights [] [] H0) as [Hok Hbad].
  split; [exact Hbad|].
  intros dimensions H. destruct (Hok dimensions H) as (Hnd & Hg & _ & Hp).
  auto.
Qed.



(** * The modules side by side *)

Lemma drop_seen_distinct (l : list Row) :
  forall seen,
    NoDup (map contract_id l) ->
    (forall a, In a seen -> ~ In a (map contract_id l)) ->
    drop_seen seen l = l.
Proof.
  induction l as [|r l IH]; intros seen Hnd Hdis; [reflexivity|]. cbn.
  inversion Hnd as [|? ? Hn Hd]; subst.
  destruct (cell_mem (contract_id r) seen) eqn:E.
  - apply cell_mem_In in E. destruct (Hdis _ E). now left.
  - f_equal. apply IH; [exact Hd|].
    intros a [<-|Ha]; [exact Hn|]. intros Hin. apply (Hdis a Ha). now right.
Qed.

(** X16: on a table without repeated identifiers the dashboard figures of utils.py
    and the chatbot's figures are the same: the executive summary holds the
    two totals of the portfolio overview, and the risk assessment counts the
    contracts the overview counts. *)
Theorem distinct_ids_make_figures_agree (now : Z) (df : DataFrame)
    (insights : list Json) (risk : list (string * Number)) :
  NoDup (map contract_id (rows df)) ->
  df_empty df = false ->
  generate_risk_assessment now df = inr risk ->
  let clean := rows (drop_duplicates df) in
  generate_executive_summary df insights
  = inr [ ("total_contract_value", NInt (col_sum total_value_usd clean));
          ("annual_commitment", NInt (col_sum annual_commitment_usd clean)) ]
  /\ dict_lookup risk "total_contracts" = Some (NInt (len clean))
  /\ nth_error (overview_section clean) 1
     = Some ("• Total Contracts: " ++ str_int (len (rows df)))
  /\ nth_error (overview_section clean) 2
     = Some ("• Total Portfolio Value: $"
               ++ fmt_money (col_sum total_value_usd (rows df))).
Proof.
  intros Hnd Hne Hrisk clean.
  assert (E : clean = rows df).
  { unfold clean, drop_duplicates. cbn [rows].
    apply drop_seen_distinct; [exact Hnd | intros a []]. }
  rewrite E. split; [|split; [|split; reflexivity]].
  - unfold generate_executive_summary. now rewrite Hne.
  - unfold generate_risk_assessment in Hrisk. rewrite Hne in Hrisk.
    destruct (with_end_dates (rows df)); cbn [bind] in Hrisk; [discriminate|].
    apply ret_inj in Hrisk. subst risk. reflexivity.
Qed.

Lemma distinct_ids_make_figures_agree_witness :
  generate_executive_summary two_contracts []
  = inr [ ("total_contract_value",
           NInt (col_sum total_value_usd (rows (drop_duplicates two_contracts))));
          ("annual_commitment",
           NInt (col_sum annual_commitment_usd
                   (rows (drop_duplicates two_contracts)))) ]
  /\ dict_lookup
       [ ("total_contracts", NInt 2); ("active_contracts", NInt 2);
         ("vendor_concentration_risk", NFloat (FFin (120000 # 2000)));
         ("expiring_soon", NInt 1) ] "total_contracts"
     = Some (NInt (len (rows (drop_duplicates two_contracts))))
  /\ nth_error (overview_section (rows (drop_duplicates two_contracts))) 1
     = Some ("• Total Contracts: " ++ str_int (len (rows two_contracts)))
  /\ nth_error (overview_section (rows (drop_duplicates two_contracts))) 2
     = Some ("• Total Portfolio Value: $"
               ++ fmt_money (col_sum total_value_usd (rows two_contracts))).
Proof.
  apply (distinct_ids_make_figures_agree sample_now two_contracts []);
    [repeat constructor; cbn; intuition discriminate
    | reflexivity | vm_compute; reflexivity].
Defined.

(** X1: the hand-over to the template rules in [generate_ai_response] is dead
    code: the two steps it was written for catch their own exceptions, and
    the one exception that does reach the handler (a bundle without a table)
    is raised again inside it.  So no run ever consults
    [generate_simple_csv_response]. *)
Theorem template_rules_are_unreachable (env : Env) (prompt : string)
    (analytics_data : Dict) (asked : string) :
  ~ In (FallbackRules asked)
       (snd (run (generate_ai_response env prompt analytics_data))).
Proof.
  unfold run, generate_ai_response, mtry, mbind, lift, mret, emit.
  destruct (frame_of _) as [e|frame]; [cbn; tauto|].
  destruct (df_empty frame); [cbn; tauto|].
  destruct (generate_comprehensive_csv_analysis_returns
              (env_now env) frame prompt) as [text ->].
  destruct (generate_openai_response_returns env prompt
              (build_combined_context
                 (dict_get (session_state env) "graph_context" "") text prompt)
              []) as (answer & log' & -> & [->| ->]); cbn; intuition discriminate.
Qed.
